(** * ngtools.viewer : a shallow embedding of [LocalNeuroglancer]

    The commands of [ngtools/viewer.py] ([display], [redisplay], [load],
    [unload], [transform], [state], [layout]) are embedded as functions over
    an explicit session state.  Python exceptions are values of [Res]; a
    command is a state-and-exception computation [Cmd] in which the session
    keeps whatever was written to it before an exception was raised, exactly
    as a Python object mutated before a [raise] does.

    [with self.viewer.txn() as state: body] runs [body] on a copy of the
    viewer state and installs the copy when [body] returns; when [body]
    raises nothing is installed.  Every installation is appended to a ghost
    log ([commits]) so that intermediate committed states can be talked
    about.

    Strings are byte strings; [str.lower] is modelled on ASCII letters.
    Matrix entries are an abstract scalar type [F] (float64 in the source). *)

From Stdlib Require Import ZArith QArith String Ascii List Lia.
From stdpp Require Import base option list strings gmap.

Local Open Scope bool_scope.

(** ** Python exceptions *)

Inductive PyError : Set :=
  | ValueError | TypeError | AttributeError | IndexError | KeyError
  | LinAlgError | OSError | JSONDecodeError | RecursionError.

Inductive Res (A : Type) : Type :=
  | Ok (a : A)
  | Raise (e : PyError).
Arguments Ok {A} a.
Arguments Raise {A} e.

#[global] Instance Res_ret : MRet Res := fun A a => Ok a.
#[global] Instance Res_bind : MBind Res := fun A B f m =>
  match m with
  | Ok a => f a
  | Raise e => Raise e
  end.

Section MapRes.
Context {A B : Type} (f : A -> Res B).

(** [[f(x) for x in xs]], stopping at the first exception. *)
Fixpoint mapRes (xs : list A) : Res (list B) :=
  match xs with
  | [] => Ok []
  | x :: xs' => y ← f x; ys ← mapRes xs'; Ok (y :: ys)
  end.
End MapRes.

(** ** Python strings *)

Module Py.

Definition lower_ascii (c : ascii) : ascii :=
  let n := nat_of_ascii c in
  if (65 <=? n)%nat && (n <=? 90)%nat then ascii_of_nat (n + 32) else c.

(** [s.lower()] *)
Fixpoint lower (s : string) : string :=
  match s with
  | EmptyString => EmptyString
  | String c s' => String (lower_ascii c) (lower s')
  end.

(** [list(s)] : the one-character strings of [s]. *)
Fixpoint chars (s : string) : list string :=
  match s with
  | EmptyString => []
  | String c s' => String c EmptyString :: chars s'
  end.

(** [''.join(l)] *)
Definition join (l : list string) : string :=
  fold_right String.append EmptyString l.

(** [s.startswith(p)] *)
Definition startswith (s p : string) : bool := String.prefix p s.

(** [s.startswith(ps)] for a tuple [ps]. *)
Definition startswith_any (s : string) (ps : list string) : bool :=
  existsb (startswith s) ps.

Definition rev_string (s : string) : string :=
  string_of_list_ascii (rev (list_ascii_of_string s)).

(** [s.endswith(p)] *)
Definition endswith (s p : string) : bool :=
  String.prefix (rev_string p) (rev_string s).

Definition endswith_any (s : string) (ps : list string) : bool :=
  existsb (endswith s) ps.

(** [s[n:]] *)
Fixpoint slice_from (n : nat) (s : string) : string :=
  match n, s with
  | O, _ => s
  | S n', String _ s' => slice_from n' s'
  | S _, EmptyString => EmptyString
  end.

(** [sub in s] *)
Fixpoint contains (s sub : string) : bool :=
  String.prefix sub s ||
  match s with
  | EmptyString => false
  | String _ s' => contains s' sub
  end.

(** [os.path.basename(p)] : what follows the last slash. *)
Fixpoint basename_aux (acc : string) (s : string) : string :=
  match s with
  | EmptyString => acc
  | String c s' =>
      if Ascii.eqb c "/"%char then basename_aux s' s' else basename_aux acc s'
  end.
Definition basename (p : string) : string := basename_aux p p.

(** [l[i]] with Python's negative indices. *)
Definition index {A} (l : list A) (i : Z) : Res A :=
  let n := Z.of_nat (length l) in
  let j := if (i <? 0)%Z then (n + i)%Z else i in
  if (j <? 0)%Z || (n <=? j)%Z then Raise IndexError
  else match l !! Z.to_nat j with
       | Some x => Ok x
       | None => Raise IndexError
       end.

(** [del l[i]] *)
Definition del_index {A} (l : list A) (i : Z) : Res (list A) :=
  let n := Z.of_nat (length l) in
  let j := if (i <? 0)%Z then (n + i)%Z else i in
  if (j <? 0)%Z || (n <=? j)%Z then Raise IndexError
  else Ok (delete (Z.to_nat j) l).

(** [l.insert(i, x)] : never raises, the position is clamped. *)
Definition list_insert {A} (l : list A) (i : Z) (x : A) : list A :=
  let n := Z.of_nat (length l) in
  let j := if (i <? 0)%Z then Z.max 0 (n + i) else Z.min i n in
  take (Z.to_nat j) l ++ x :: drop (Z.to_nat j) l.

End Py.

(** ** numpy arrays *)

Module np.

Set Implicit Arguments.
Set Maximal Implicit Insertion.

(** An n-dimensional array: its shape and its entries in row-major order. *)
Record ndarray (F : Type) : Type := Ndarray
  { shape : list nat; data : list F }.

(** What Python hands to [np.asarray]: numbers, strings (the command line
    passes the entries of a matrix as strings) and nested lists. *)
#[warnings="-register-all"]
Inductive PyVal (F : Type) : Type :=
  | PyNum (x : F)
  | PyStr (s : string)
  | PyList (l : list (PyVal F)).

Unset Maximal Implicit Insertion.
Unset Implicit Arguments.

Arguments PyStr {F} s.

Section Arrays.
Context {F : Type}.

Definition ndim (a : ndarray F) : nat := length (shape a).

(** [len(a)] *)
Definition len (a : ndarray F) : Res nat :=
  match shape a with
  | [] => Raise TypeError
  | n :: _ => Ok n
  end.

(** [np.asarray(v, dtype='float64')]; [parse] is [float] on strings. *)
Fixpoint asarray (parse : string -> option F) (v : PyVal F)
    : Res (ndarray F) :=
  match v with
  | PyNum x => Ok (Ndarray [] [x])
  | PyStr s =>
      match parse s with
      | Some x => Ok (Ndarray [] [x])
      | None => Raise ValueError
      end
  | PyList l =>
      rs ← mapRes (asarray parse) l;
      match rs with
      | [] => Ok (Ndarray [0] [])
      | r :: _ =>
          if forallb (fun r' => bool_decide (shape r' = shape r)) rs
          then Ok (Ndarray (length rs :: shape r) (concat (map data rs)))
          else Raise ValueError
      end
  end.

(** [a.reshape([r, c])] *)
Definition reshape (a : ndarray F) (r c : nat) : Res (ndarray F) :=
  if Nat.eqb (length (data a)) (r * c)
  then Ok (Ndarray [r; c] (data a))
  else Raise ValueError.

(** [np.eye(n)] *)
Definition eye (zero one : F) (n : nat) : ndarray F :=
  Ndarray [n; n]
    (concat (map (fun i => map (fun j => if Nat.eqb i j then one else zero)
                               (seq 0 n)) (seq 0 n))).

(** [a[:-1]] *)
Definition drop_last (a : ndarray F) : Res (ndarray F) :=
  match shape a with
  | [] => Raise IndexError
  | r :: rest =>
      Ok (Ndarray (Nat.pred r :: rest)
            (take (Nat.pred r * fold_right Nat.mul 1 rest) (data a)))
  end.

End Arrays.

End np.

(** ** The neuroglancer data model, as far as the viewer reads and writes it *)

Module ng.

Set Implicit Arguments.
Set Maximal Implicit Insertion.

Record CoordinateSpace (F : Type) : Type := MkCoordinateSpace
  { names : list string; units : list string; scales : list F }.

Record CoordinateSpaceTransform (F : Type) : Type := MkTransform
  { matrix : option (np.ndarray F);
    inputDimensions : option (CoordinateSpace F);
    outputDimensions : option (CoordinateSpace F) }.

(** What the viewer probes on a source: [LayerDataSource], [LocalVolume]
    and the descriptions built by [RemoteSource.from_filename] are all read
    through [getattr(source, 'transform', None)],
    [getattr(source, 'dimensions', None)], [isinstance(_, ng.LocalVolume)],
    [source.url] and [hasattr(source, 'quantiles')].  The data source of a
    layer, a [LayerDataSource], has a URL and at most a transform; own
    [dimensions] and [quantiles] are those of a description or of a local
    volume. *)
Record Source (F : Type) : Type := MkSource
  { transform : option (CoordinateSpaceTransform F);
    dimensions : option (CoordinateSpace F);
    is_LocalVolume : bool;
    url : string;
    quantiles : option (F * F * F * F) }.

Record Layer (F : Type) : Type := MkLayer
  { is_ImageLayer : bool;
    source : list (Source F);
    shader : option string;
    shaderControls : option ((F * F) * (F * F)) }.

(** An entry of [state.layers]. *)
Record ManagedLayer (F : Type) : Type := MkManagedLayer
  { name : string; layer : Layer F }.

(** [state.layout] : a panel name such as ["xy"], a [LayerGroupViewer] or a
    [StackLayout]. *)
#[warnings="-register-all"]
Inductive Layout (F : Type) : Type :=
  | DataPanelLayout (kind : string)
  | LayerGroupViewer (layers : list string) (layout : Layout F) (flex : F)
  | StackLayout (type : string) (children : list (Layout F)).

Record ViewerState (F : Type) : Type := MkViewerState
  { layers : list (ManagedLayer F);
    layout : Layout F;
    displayDimensions : option (list string) }.

Unset Maximal Implicit Insertion.
Unset Implicit Arguments.

Arguments DataPanelLayout {F} kind.

Definition set_transform {F} (s : Source F)
    (t : CoordinateSpaceTransform F) : Source F :=
  {| transform := Some t; dimensions := dimensions s;
     is_LocalVolume := is_LocalVolume s; url := url s;
     quantiles := quantiles s |}.

Definition set_source {F} (l : Layer F) (ss : list (Source F)) : Layer F :=
  {| is_ImageLayer := is_ImageLayer l; source := ss; shader := shader l;
     shaderControls := shaderControls l |}.

Definition set_shader {F} (l : Layer F) (sh : string) : Layer F :=
  {| is_ImageLayer := is_ImageLayer l; source := source l;
     shader := Some sh; shaderControls := shaderControls l |}.

Definition set_layer {F} (m : ManagedLayer F) (l : Layer F) : ManagedLayer F :=
  {| name := name m; layer := l |}.

Definition set_layers {F} (st : ViewerState F)
    (ls : list (ManagedLayer F)) : ViewerState F :=
  {| layers := ls; layout := layout st;
     displayDimensions := displayDimensions st |}.

Definition set_layout {F} (st : ViewerState F) (l : Layout F) : ViewerState F :=
  {| layers := layers st; layout := l;
     displayDimensions := displayDimensions st |}.

Definition set_displayDimensions {F} (st : ViewerState F)
    (d : option (list string)) : ViewerState F :=
  {| layers := layers st; layout := layout st; displayDimensions := d |}.

(** [.children] exists on a [StackLayout] only. *)
Definition children_of {F} (l : Layout F) : Res (list (Layout F)) :=
  match l with
  | StackLayout _ ch => Ok ch
  | _ => Raise AttributeError
  end.

(** [.children = ch] on a node that has children. *)
Definition with_children {F} (l : Layout F) (ch : list (Layout F)) : Layout F :=
  match l with
  | StackLayout ty _ => StackLayout ty ch
  | _ => l
  end.

(** [.layers] exists on a [LayerGroupViewer] only. *)
Definition layers_of {F} (l : Layout F) : Res (list string) :=
  match l with
  | LayerGroupViewer ls _ _ => Ok ls
  | _ => Raise AttributeError
  end.

(** Truth value of a layout object: a string is true when non-empty, a
    [StackLayout] has [__len__] (its number of children), any other object
    is true. *)
Definition truthy {F} (l : Layout F) : bool :=
  match l with
  | DataPanelLayout k => negb (String.eqb k "")
  | LayerGroupViewer _ _ _ => true
  | StackLayout _ ch => negb (Nat.eqb (length ch) 0)
  end.

End ng.

(** ** External collaborators

    Everything [viewer.py] imports and calls but does not define: numpy,
    the tables and helpers of [ngtools.spaces], the description providers of
    [ngtools.volume], [ngtools.transforms.load_affine],
    [ngtools.opener.remote_protocols], the file server, the file system and
    the JSON/URL codecs. *)

Class Externals (F : Type) : Type := {
  (* float64 *)
  fzero : F;
  fone : F;
  float_of_string : string -> option F;
  float_truth : F -> bool;
  (* numpy.linalg.inv : raises LinAlgError on a singular matrix *)
  linalg_inv : np.ndarray F -> Res (np.ndarray F);
  (* ngtools.spaces *)
  letter2full : gmap string string;
  neurotransforms : gmap (string * string) (ng.CoordinateSpaceTransform F);
  compose : ng.CoordinateSpaceTransform F -> ng.CoordinateSpaceTransform F ->
            Res (ng.CoordinateSpaceTransform F);
  to_square_other_rank : np.ndarray F -> Res (np.ndarray F);
  (* ngtools.volume *)
  RemoteSource_from_filename : string -> Res (ng.Source F);
  LocalSource_from_filename : string -> option string -> Res (ng.Source F);
  (* ngtools.transforms *)
  load_affine : string -> option string -> option string -> Res (np.ndarray F);
  (* ngtools.opener *)
  remote_protocols : list string;
  (* self.fileserver *)
  fileserver_ip : string;
  fileserver_port : string;
  (* neuroglancer's [del state.layers[name]] when no layer has that name *)
  del_missing_layer : string -> list (ng.ManagedLayer F) ->
                      Res (list (ng.ManagedLayer F));
  (* os, json, urllib *)
  Json : Type;
  os_path_exists : string -> bool;
  json_load_file : string -> Res Json;
  json_loads : string -> Res Json;
  json_dumps : Json -> string;
  json_dump_file : string -> Json -> Res unit;
  urlparse_fragment : string -> string;
  urlunquote : string -> string;
  urlquote : string -> string;
  set_state : Json -> ng.ViewerState F -> Res (ng.ViewerState F);
  to_json : ng.ViewerState F -> Json;
  (* str() of a layout, for [print(state.layout)] *)
  repr_layout : ng.Layout F -> string
}.

(** ** The session: [self] *)

Record Session (F : Type) : Type := MkSession
  { viewer : ng.ViewerState F;                  (* self.viewer's state *)
    display_dimensions : option (list string);  (* self.display_dimensions *)
    commits : list (ng.ViewerState F);          (* ghost: every committed state, oldest first *)
    stdout : list string }.
Arguments MkSession {F} _ _ _ _.
Arguments viewer {F} _.
Arguments display_dimensions {F} _.
Arguments commits {F} _.
Arguments stdout {F} _.

Definition Cmd (F A : Type) : Type := Session F -> Session F * Res A.

#[global] Instance Cmd_ret {F} : MRet (Cmd F) := fun A a self => (self, Ok a).
#[global] Instance Cmd_bind {F} : MBind (Cmd F) := fun A B f m self =>
  match m self with
  | (self', Ok a) => f a self'
  | (self', Raise e) => (self', Raise e)
  end.

Section Primitives.
Context {F : Type}.

Definition raise {A} (e : PyError) : Cmd F A := fun self => (self, Raise e).

Definition lift {A} (r : Res A) : Cmd F A := fun self => (self, r).

Definition get_display_dimensions : Cmd F (option (list string)) :=
  fun self => (self, Ok (display_dimensions self)).

Definition set_display_dimensions (d : option (list string)) : Cmd F unit :=
  fun self => (MkSession (viewer self) d (commits self) (stdout self), Ok tt).

Definition print (line : string) : Cmd F unit :=
  fun self => (MkSession (viewer self) (display_dimensions self)
                 (commits self) (stdout self ++ [line]), Ok tt).

(** [with self.viewer.txn() as state: body].  The body works on a copy;
    the copy is installed when the body returns and dropped when it
    raises. *)
Definition txn {A} (body : ng.ViewerState F -> Res (ng.ViewerState F * A))
    : Cmd F A := fun self =>
  match body (viewer self) with
  | Ok (state', a) =>
      (MkSession state' (display_dimensions self)
         (commits self ++ [state']) (stdout self), Ok a)
  | Raise e => (self, Raise e)
  end.

(** [for x in xs: body(x)] *)
Fixpoint for_each {A} (body : A -> Cmd F unit) (xs : list A) : Cmd F unit :=
  match xs with
  | [] => mret tt
  | x :: xs' => _ ← body x; for_each body xs'
  end.

End Primitives.

(** Arguments that are [None], one string, or a list of strings. *)
Inductive StrArg : Set :=
  | ArgNone
  | ArgStr (s : string)
  | ArgList (l : list string).

(** [ensure_list(x or [])] *)
Definition ensure_list (x : StrArg) : list string :=
  match x with
  | ArgNone => []
  | ArgStr s => if String.eqb s "" then [] else [s]
  | ArgList l => l
  end.

(** ** The [action] decorator (lines 27-44) *)

Section Action.
Context {V : Type}.

(** A positional argument: an [argparse.Namespace] (its [vars]) or any other
    value. *)
Inductive Arg : Type :=
  | Positional (v : V)
  | Namespace (vars : gmap string V).

(** What [wrapper] hands to the decorated function: the positional and the
    keyword arguments.  [parsedargs.update(kwargs)] lets the keywords of the
    call win over the parsed ones; [parsedargs.pop('func', None)] drops the
    entry ['func']. *)
Definition action (args : list Arg) (kwargs : gmap string V)
    : Res (list Arg * gmap string V) :=
  match args with
  | Namespace parsedargs :: args' =>
      if Nat.ltb 1 (length args) then Raise ValueError
      else Ok (args', delete "func" (kwargs ∪ parsedargs))
  | _ => Ok (args, kwargs)
  end.

End Action.

(** The catalogue of [ngtools.shaders]: [getattr(shaders, name)] where
    [hasattr(shaders, name)], membership in [colormaps], and
    [shaders.colormap(name)]. *)
Class ShaderCatalog : Type := {
  shaders_attr : string -> option string;
  colormaps_has : string -> bool;
  shaders_colormap : string -> string
}.

Module LocalNeuroglancer.

(** *** [parse_filename] and its tables (lines 855-946) *)

Definition LAYERTYPES : list string :=
  ["volume"; "labels"; "surface"; "tracts"; "roi"; "points"; "transform";
   "affine"].

Definition NG_FORMATS : list string :=
  ["boss"; "brainmap"; "deepzoom"; "dvid"; "graphene"; "local"; "n5";
   "nggraph"; "nifti"; "obj"; "precomputed"; "render"; "vtk"; "zarr";
   "zarr2"; "zarr3"].

Definition EXTRA_FORMATS : list string :=
  ["mgh"; "mgz"; "trk"; "lta"; "surf"; "annot"; "tck"; "mif"; "gii"; "tiff";
   "niftyreg"].

(** [for p in protocols: if filename.startswith(p + '://'): ...; break] *)
Fixpoint strip_protocol (protocols : list string) (filename : string)
    : option string * string :=
  match protocols with
  | [] => (None, filename)
  | p :: ps =>
      if Py.startswith filename (p +:+ "://")
      then (Some p, Py.slice_from (String.length p + 3) filename)
      else strip_protocol ps filename
  end.

Definition guess_format (filename : string) : option string :=
  if Py.endswith filename ".mgh" then Some "mgh"
  else if Py.endswith filename ".mgz" then Some "mgz"
  else if Py.endswith_any filename [".nii"; ".nii.gz"] then Some "nifti"
  else if Py.endswith filename ".trk" then Some "trk"
  else if Py.endswith filename ".tck" then Some "tck"
  else if Py.endswith filename ".lta" then Some "lta"
  else if Py.endswith filename ".mif" then Some "mif"
  else if Py.endswith_any filename [".tiff"; ".tif"] then Some "tiff"
  else if Py.endswith filename ".gii" then Some "gii"
  else if Py.endswith_any filename [".zarr"; ".zarr/"] then Some "zarr"
  else if Py.endswith filename ".vtk" then Some "vtk"
  else if Py.endswith filename ".obj" then Some "obj"
  else if Py.endswith_any filename [".n5"; ".n5/"] then Some "n5"
  else None.

Definition parse_filename (filename : string)
    : option string * option string * string :=
  let '(datatype, filename) := strip_protocol LAYERTYPES filename in
  let '(format, filename) :=
    strip_protocol (NG_FORMATS ++ EXTRA_FORMATS) filename in
  let format := match format with
                | Some f => Some f
                | None => guess_format filename
                end in
  (datatype, format, filename).

(** [format in formats], where [format] may be [None]. *)
Definition format_in (format : option string) (formats : list string) : bool :=
  match format with
  | Some f => existsb (String.eqb f) formats
  | None => false
  end.

(** The [url] argument of [state]: documented as a flag, but read by the code
    both as a flag and as a string. *)
Inductive UrlArg : Set :=
  | UrlFlag (b : bool)
  | UrlStr (s : string).

Definition url_truth (url : UrlArg) : bool :=
  match url with
  | UrlFlag b => b
  | UrlStr s => negb (String.eqb s "")
  end.

(** Arguments that are [None], one integer, or a list of integers
    ([append], [insert], [remove]). *)
Inductive IntArg : Set :=
  | IntNone
  | IntOne (i : Z)
  | IntList (l : list Z).

(** [a is None] *)
Definition is_IntNone (a : IntArg) : bool :=
  match a with
  | IntNone => true
  | _ => false
  end.

Definition int_truth (a : IntArg) : bool :=
  match a with
  | IntNone => false
  | IntOne i => negb (Z.eqb i 0)
  | IntList l => negb (Nat.eqb (length l) 0)
  end.

(** [ensure_list(a or [])] *)
Definition ensure_ints (a : IntArg) : list Z :=
  match a with
  | IntNone => []
  | IntOne i => if Z.eqb i 0 then [] else [i]
  | IntList l => l
  end.

(** [x = indices.pop(-1)] : the remaining list and the popped element. *)
Definition pop_last (indices : list Z) : Res (list Z * Z) :=
  match last indices with
  | Some x => Ok (removelast indices, x)
  | None => Raise IndexError
  end.

(** Truth value of an integer or [False] ([None] here). *)
Definition opt_int_truth (i : option Z) : bool :=
  match i with
  | Some i => negb (Z.eqb i 0)
  | None => false
  end.

(** Truth value of an optional string. *)
Definition str_truth (s : option string) : bool :=
  match s with
  | Some s => negb (String.eqb s "")
  | None => false
  end.

Section Commands.
Context {F : Type} {E : Externals F}.

Abbreviation CoordinateSpace := (ng.CoordinateSpace F).
Abbreviation Transform := (ng.CoordinateSpaceTransform F).
Abbreviation Source := (ng.Source F).
Abbreviation ViewerState := (ng.ViewerState F).

(** *** [display] and its nested helpers (lines 278-383) *)

(** [x[0].lower()] *)
Definition first_letter (x : string) : Res string :=
  match x with
  | EmptyString => Raise IndexError
  | String c _ => Ok (String (Py.lower_ascii c) EmptyString)
  end.

Definition compactNames (names : list string) : Res string :=
  names ← mapRes first_letter names;
  Ok (Py.join (List.filter (fun d => negb (Py.contains "ct" d)) names)).

(** [all(name in onames for name in names)] *)
Definition all_in (names onames : string) : bool :=
  forallb (fun name => Py.contains onames name) (Py.chars names).

(** [getDimensions(source, _reentrant)].  The result carries the list of
    URLs handed to [RemoteSource.from_filename]; [None] is fuel running
    out. *)
Fixpoint getDimensions_rec (fuel : nat) (source : Source) (_reentrant : bool)
    : option (list string * Res (option CoordinateSpace)) :=
  match fuel with
  | O => None
  | S fuel' =>
      match ng.transform source ≫= ng.inputDimensions with
      | Some idims => Some ([], Ok (Some idims))
      | None =>
          match ng.dimensions source with
          | Some dims => Some ([], Ok (Some dims))
          | None =>
              if negb _reentrant && negb (ng.is_LocalVolume source) then
                match RemoteSource_from_filename (ng.url source) with
                | Raise e => Some ([ng.url source], Raise e)
                | Ok mysource =>
                    match getDimensions_rec fuel' mysource true with
                    | Some (urls, r) => Some (ng.url source :: urls, r)
                    | None => None
                    end
                end
              else Some ([], Ok None)
          end
      end
  end.

Definition getDimensions (source : Source) : Res (option CoordinateSpace) :=
  match getDimensions_rec 2 source false with
  | Some (_, r) => r
  | None => Raise RecursionError
  end.

Definition getTransform (source : Source) : Res (option Transform) :=
  match ng.transform source with
  | Some t => Ok (Some t)
  | None =>
      if negb (ng.is_LocalVolume source) then
        mysource ← RemoteSource_from_filename (ng.url source);
        Ok (ng.transform mysource)
      else Ok None
  end.

(** [neurotransforms[(a, b)]] *)
Definition neurotransforms_at (a b : string) : Res Transform :=
  match neurotransforms !! (a, b) with
  | Some T => Ok T
  | None => Raise KeyError
  end.

Definition reorientUsingTransform (names : string) (source : Source)
    : Res (Source * bool) :=
  transform ← getTransform source;
  idims ← getDimensions source;
  transform ← match transform with
              | Some t => Ok t
              | None => Raise AttributeError
              end;
  let matrix := default (np.eye fzero fone 4) (ng.matrix transform) in
  let odims := ng.outputDimensions transform in
  onames ← match odims with
           | Some d => Ok (ng.names d)
           | None => Raise AttributeError
           end;
  onames ← compactNames onames;
  if all_in names onames then Ok (source, false)
  else
    let T0 := ng.MkTransform (Some matrix) idims odims in
    T ← neurotransforms_at onames names;
    t ← compose T T0;
    Ok (ng.set_transform source t, true).

Definition reorientUsingDimensions (names : string) (source : Source)
    : Res (Source * bool) :=
  idims ← getDimensions source;
  match idims with
  | None => Ok (source, false)
  | Some d =>
      inames ← compactNames (ng.names d);
      if all_in names inames then Ok (source, true)
      else
        let T0 := ng.MkTransform None idims idims in
        T ← neurotransforms_at inames names;
        t ← compose T T0;
        Ok (ng.set_transform source t, true)
  end.

(** The body of [for source in layer.source] in [display]. *)
Definition display_source (names : string) (source : Source) : Res Source :=
  t ← getTransform source;
  r ← (if bool_decide (is_Some t) then reorientUsingTransform names source
       else reorientUsingDimensions names source);
  Ok (fst r).

(** The body of [for layer in state.layers], given the body for a source. *)
Definition on_image_sources (body : Source -> Res Source)
    (l : ng.ManagedLayer F) : Res (ng.ManagedLayer F) :=
  if ng.is_ImageLayer (ng.layer l) then
    ss ← mapRes body (ng.source (ng.layer l));
    Ok (ng.set_layer l (ng.set_source (ng.layer l) ss))
  else Ok l.

(** [redisplay] takes a variable argument list: a call without argument
    is [None] here, [redisplay(x)] is [Some x]. *)
Definition redisplay (args : option (option (list string))) : Cmd F unit :=
  _ ← match args with
      | Some d => set_display_dimensions d
      | None => mret tt
      end;
  dd ← get_display_dimensions;
  txn (fun state => Ok (ng.set_displayDimensions state dd, tt)).

(** [letter2full.get(letter.lower(), letter)] *)
Definition resolve_letter (letter : string) : string :=
  default letter (letter2full !! Py.lower letter).

(** The tokens [display] counts: one token is split into its letters. *)
Definition display_tokens (dimensions : list string) : list string :=
  match dimensions with
  | [d] => Py.chars d
  | _ => dimensions
  end.

Definition display (dimension : StrArg) : Cmd F unit :=
  let dimensions := ensure_list dimension in
  _ ← match dimensions with
      | [] => mret tt
      | _ =>
          let dimensions := display_tokens dimensions in
          if negb (Nat.eqb (length dimensions) 3) then raise ValueError
          else set_display_dimensions (Some (map resolve_letter dimensions))
      end;
  dd ← get_display_dimensions;
  names ← lift (match dd with
                | Some d => compactNames d
                | None => Raise TypeError
                end);
  _ ← txn (fun state =>
             ls ← mapRes (on_image_sources (display_source names))
                         (ng.layers state);
             Ok (ng.set_layers state ls, tt));
  redisplay None.


(** *** [load] (lines 400-479) *)

Definition ensure_url (filename : string) : string :=
  if negb (Py.startswith_any filename remote_protocols) then
    let filename := if Py.startswith filename "/"
                    then "root://" +:+ filename else filename in
    "http://" +:+ fileserver_ip +:+ ":" +:+ fileserver_port +:+ "/"
      +:+ filename
  else filename.

(** [controls] : built when the description has [quantiles]. *)
Definition controls_of (source : Source) : option ((F * F) * (F * F)) :=
  match ng.quantiles source with
  | Some (mn, q0, q1, mx) => Some ((q0, q1), (mn, mx))
  | None => None
  end.

(** Truth value of the [transform] argument of [load]. *)
Definition pyval_truth (v : option (np.PyVal F)) : bool :=
  match v with
  | None => false
  | Some (np.PyNum x) => float_truth x
  | Some (np.PyStr s) => negb (String.eqb s "")
  | Some (np.PyList l) => negb (Nat.eqb (length l) 0)
  end.

(** The body of [for filename in filenames]. *)
Definition load_one (name0 : option string) (filename : string) : Cmd F unit :=
  let '(layertype, format, filename) := parse_filename filename in
  let name := if str_truth name0 then default "" name0
              else Py.basename filename in
  layer ← lift (
    if format_in format NG_FORMATS then
      let filename := ensure_url filename in
      let url := default "" format +:+ "://" +:+ filename in
      source ← RemoteSource_from_filename url;
      Ok (ng.MkLayer true
            [ng.MkSource (ng.transform source) None false url None]
            None (controls_of source))
    else if format_in format EXTRA_FORMATS then
      let filename := default "" format +:+ "://" +:+ filename in
      source ← LocalSource_from_filename filename layertype;
      Ok (ng.MkLayer true [source] None (controls_of source))
    else Raise ValueError);
  txn (fun state =>
         Ok (ng.set_layers state
               (ng.layers state ++ [ng.MkManagedLayer name layer]), tt)).

(** [self.transform(transform, name=name0)] passes a keyword that
    [transform] does not take: the call raises [TypeError]. *)
Definition load (filename : StrArg) (name : option string)
    (transform : option (np.PyVal F)) : Cmd F unit :=
  let filenames := ensure_list filename in
  if str_truth name && Nat.ltb 1 (length filenames) then raise ValueError
  else
    let name0 := name in
    display_dimensions ← get_display_dimensions;
    _ ← redisplay (Some None);
    _ ← for_each (load_one name0) filenames;
    _ ← (if pyval_truth transform then raise TypeError else mret tt);
    redisplay (Some display_dimensions).

(** *** [unload] (lines 481-498) *)

(** [del state.layers[name]] : the first layer of that name goes. *)
Fixpoint del_layer (name : string) (ls : list (ng.ManagedLayer F))
    : option (list (ng.ManagedLayer F)) :=
  match ls with
  | [] => None
  | l :: ls' =>
      if String.eqb (ng.name l) name then Some ls'
      else cons l <$> del_layer name ls'
  end.

Definition layers_delitem (name : string) (ls : list (ng.ManagedLayer F))
    : Res (list (ng.ManagedLayer F)) :=
  match del_layer name ls with
  | Some ls' => Ok ls'
  | None => del_missing_layer name ls
  end.

(** [for name in layers: del state.layers[name]] *)
Fixpoint del_layers (names : list string) (ls : list (ng.ManagedLayer F))
    : Res (list (ng.ManagedLayer F)) :=
  match names with
  | [] => Ok ls
  | name :: names' => ls' ← layers_delitem name ls; del_layers names' ls'
  end.

Definition unload (layer : StrArg) : Cmd F unit :=
  layers ← match ensure_list layer with
           | [] => txn (fun state => Ok (state, map ng.name (ng.layers state)))
           | layers => mret layers
           end;
  txn (fun state =>
         ls ← del_layers layers (ng.layers state);
         Ok (ng.set_layers state ls, tt)).

(** *** [transform] (lines 500-624) *)

(** Modelled from the spec: [ngtools.spaces.to_square] is not among the
    sources.  The spec (4.5): "Square the matrix by appending the canonical
    homogeneous bottom row [0,...,0,1] if it is not already square."  On an
    array that is not 2-D the spec is silent and the result is the
    collaborator's. *)
Definition to_square (a : np.ndarray F) : Res (np.ndarray F) :=
  match np.shape a with
  | [r; c] =>
      if Nat.eqb r c then Ok a
      else Ok (np.Ndarray [S r; c]
                 (np.data a ++ replicate (Nat.pred c) fzero ++ [fone]))
  | _ => to_square_other_rank a
  end.

(** [int(np.sqrt(1 + 4 * k).item()) // 2] : the float square root of an
    integer below 2^52 truncates to the integer square root. *)
Definition flat_side (k : nat) : nat := Nat.sqrt (1 + 4 * k) / 2.

(** The branch [transform.ndim == 1] (lines 535-542). *)
Definition reshape_flat (a : np.ndarray F) : Res (np.ndarray F) :=
  k ← np.len a;
  if Nat.eqb k 12 then np.reshape a 3 4
  else if Nat.eqb k 16 then np.reshape a 4 4
  else let n := flat_side k in np.reshape a n (n + 1).

(** [ensure_list(transform)] followed by
    [if len(transform) == 1: transform = transform[0]]. *)
Definition unwrap_single (transform : np.PyVal F) : np.PyVal F :=
  match transform with
  | np.PyList [x] => x
  | _ => transform
  end.

(** "prepare transformation matrix" (lines 528-548). *)
Definition prepare_matrix (transform : np.PyVal F) (inv : bool)
    (mov fix_ : option string) : Res (np.ndarray F) :=
  let transform := unwrap_single transform in
  a ← match transform with
      | np.PyStr s => load_affine s mov fix_
      | _ => np.asarray float_of_string transform
      end;
  a ← (if Nat.eqb (np.ndim a) 1 then reshape_flat a
       else if Nat.ltb 2 (np.ndim a) then Raise ValueError
       else Ok a);
  a ← to_square a;
  a ← (if inv then linalg_inv a else Ok a);
  np.drop_last a.

Definition RAS : CoordinateSpace :=
  ng.MkCoordinateSpace ["right"; "anterior"; "superior"]
    ["mm"; "mm"; "mm"] [fone; fone; fone].

Definition composeTransform (T : Transform) (source : Source)
    : Res (Source * bool) :=
  transform ← getTransform source;
  idims ← getDimensions source;
  transform ← match transform with
              | Some t => Ok t
              | None => Raise AttributeError
              end;
  let matrix := default (np.eye fzero fone 4) (ng.matrix transform) in
  let odims := ng.outputDimensions transform in
  let T0 := ng.MkTransform (Some matrix) idims odims in
  t ← compose T T0;
  Ok (ng.set_transform source t, true).

Definition applyTransform (T : Transform) (source : Source)
    : Res (Source * bool) :=
  idims ← getDimensions source;
  match idims with
  | None => Ok (source, false)
  | Some _ =>
      let T0 := ng.MkTransform None idims idims in
      t ← compose T T0;
      Ok (ng.set_transform source t, true)
  end.

(** The body of [for source in layer.source] in [transform]. *)
Definition transform_source (T : Transform) (source : Source) : Res Source :=
  t ← getTransform source;
  r ← (if bool_decide (is_Some t) then composeTransform T source
       else applyTransform T source);
  Ok (fst r).

Definition dims_arg (d : option (list string)) : StrArg :=
  match d with
  | None => ArgNone
  | Some l => ArgList l
  end.

Definition transform (transform : np.PyVal F) (layer : StrArg) (inv : bool)
    (mov fix_ : option string) : Cmd F unit :=
  let layer_names := ensure_list layer in
  display_dimensions ← get_display_dimensions;
  _ ← display (ArgStr "ras");
  matrix ← lift (prepare_matrix transform inv mov fix_);
  let T := ng.MkTransform (Some matrix) (Some RAS) (Some RAS) in
  _ ← txn (fun state =>
             ls ← mapRes
                    (fun l =>
                       if negb (Nat.eqb (length layer_names) 0)
                          && negb (existsb (String.eqb (ng.name l)) layer_names)
                       then Ok l
                       else on_image_sources (transform_source T) l)
                    (ng.layers state);
             Ok (ng.set_layers state ls, tt));
  display (dims_arg display_dimensions).


(** *** [state] (lines 653-704) *)

(** The branch [if load:] up to the decoded JSON document.  In the second
    arm the code tests ['://' in url] on the [url] argument itself. *)
Definition state_load (load : string) (url : UrlArg) : Res Json :=
  if os_path_exists load || Py.startswith_any load remote_protocols then
    json_load_file load
  else if url_truth url then
    match url with
    | UrlFlag _ => Raise TypeError
    | UrlStr u =>
        u ← (if Py.contains u "://" then
               match urlparse_fragment u with
               | EmptyString => Raise IndexError
               | String c rest =>
                   if Ascii.eqb c "!"%char then Ok rest else Raise ValueError
               end
             else Ok u);
        json_loads (urlunquote u)
    end
  else
    match url with
    | UrlFlag _ => Raise TypeError
    | UrlStr u => json_loads u
    end.

Definition state (load save : option string) (url : UrlArg) (print_ : bool)
    : Cmd F (Json + string) :=
  st ← (if str_truth load then
          j ← lift (state_load (default "" load) url);
          _ ← txn (fun ngstate => s' ← set_state j ngstate; Ok (s', tt));
          mret j
        else txn (fun ngstate => Ok (ngstate, to_json ngstate)));
  _ ← (if str_truth save then lift (json_dump_file (default "" save) st)
       else mret tt);
  if print_ then
    if url_truth url then
      let s := "https://neuroglancer-demo.appspot.com/#!"
                 +:+ urlquote (json_dumps st) in
      _ ← print s; mret (inr s)
    else
      _ ← print (json_dumps st); mret (inl st)
  else mret (inl st).

(** *** [layout] (lines 706-824) *)

(** The values the local variable [layout] takes: a list of nodes, or one
    node. *)
Inductive LayoutVal : Type :=
  | LvList (l : list (ng.Layout F))
  | LvNode (n : ng.Layout F).

Definition lv_truth (layout : LayoutVal) : bool :=
  match layout with
  | LvList l => negb (Nat.eqb (length l) 0)
  | LvNode n => ng.truthy n
  end.

Definition lv_is_LayerGroupViewer (layout : LayoutVal) : bool :=
  match layout with
  | LvNode (ng.LayerGroupViewer _ _ _) => true
  | _ => false
  end.

(** [layout.children] *)
Definition lv_children (layout : LayoutVal) : Res (list (ng.Layout F)) :=
  match layout with
  | LvList _ => Raise AttributeError
  | LvNode n => ng.children_of n
  end.

(** A list is not a layout: storing one is refused. *)
Definition lv_node (layout : LayoutVal) : Res (ng.Layout F) :=
  match layout with
  | LvList _ => Raise TypeError
  | LvNode n => Ok n
  end.

(** Lines 752-775: the new subtree. *)
Definition build_layout (layout : list string) (stack : option string)
    (layer : list string) (flex : F) : LayoutVal :=
  let items :=
    match layer with
    | [] => map ng.DataPanelLayout layout
    | _ => map (fun L => ng.LayerGroupViewer layer (ng.DataPanelLayout L) flex)
               layout
    end in
  let stack := if Nat.ltb 1 (length items) && negb (str_truth stack)
               then Some "row" else stack in
  if str_truth stack then LvNode (ng.StackLayout (default "" stack) items)
  else match items with
       | [item] => LvNode item
       | _ => LvList items
       end.

(** [parent = state.layout; while indices: parent =
    layout.children[indices.pop(0)]] : every step indexes the children of
    the new [layout]. *)
Fixpoint walk (layout : LayoutVal) (parent : ng.Layout F) (indices : list Z)
    : Res (ng.Layout F) :=
  match indices with
  | [] => Ok parent
  | i :: indices' =>
      ch ← lv_children layout;
      p ← Py.index ch i;
      walk layout p indices'
  end.

(** The transaction of lines 800-824.  [parent] is the root of the state
    when [indices] is empty; otherwise it is a child of the new [layout], an
    object the state does not hold, and editing it leaves the state as it
    was. *)
Definition layout_txn (layout : LayoutVal) (layer : list string) (flex : F)
    (indices : list Z) (append : bool) (insert remove : option Z)
    (state : ViewerState) : Res (ViewerState * ng.Layout F) :=
  if append || bool_decide (is_Some insert) || bool_decide (is_Some remove)
  then
    parent ← walk layout (ng.layout state) indices;
    layout ← (if lv_truth layout && negb (lv_is_LayerGroupViewer layout) then
                layer ← match layer with
                        | [] =>
                            ch ← ng.children_of parent;
                            if negb (Nat.eqb (length ch) 0) then
                              lastc ← Py.index ch (-1);
                              ng.layers_of lastc
                            else Ok (map ng.name (ng.layers state))
                        | _ => Ok layer
                        end;
                n ← lv_node layout;
                Ok (LvNode (ng.LayerGroupViewer layer n flex))
              else Ok layout);
    parent' ← (if append then
                 ch ← ng.children_of parent;
                 n ← lv_node layout;
                 Ok (ng.with_children parent (ch ++ [n]))
               else if opt_int_truth insert then
                 ch ← ng.children_of parent;
                 n ← lv_node layout;
                 Ok (ng.with_children parent
                       (Py.list_insert ch (default 0%Z insert) n))
               else if opt_int_truth remove then
                 ch ← ng.children_of parent;
                 ch' ← Py.del_index ch (default 0%Z remove);
                 Ok (ng.with_children parent ch')
               else Ok parent);
    let state' := match indices with
                  | [] => ng.set_layout state parent'
                  | _ => state
                  end in
    Ok (state', ng.layout state')
  else
    n ← lv_node layout;
    Ok (ng.set_layout state n, n).

Definition layout (layout : StrArg) (stack : option string) (layer : StrArg)
    (flex : F) (append insert remove : IntArg) : Cmd F (ng.Layout F) :=
  let layout := ensure_list layout in
  if Nat.eqb (length layout) 0 && is_IntNone remove then
    txn (fun state => Ok (state, ng.layout state))
    ≫= (fun l => _ ← print (repr_layout l); mret l)
  else
    let layer := ensure_list layer in
    layer ← (if (Nat.ltb 1 (length layout) || str_truth stack)
                && Nat.eqb (length layer) 0
             then txn (fun state => Ok (state, map ng.name (ng.layers state)))
             else mret layer);
    let layout := build_layout layout stack layer flex in
    let do_append := negb (is_IntNone append) in
    let indices := if do_append then ensure_ints append else [] in
    let append := do_append in
    '(indices, insert) ← lift (if int_truth insert then
                                 '(ix, i) ← pop_last (ensure_ints insert);
                                 Ok (ix, Some i)
                               else Ok (indices, None));
    '(indices, remove) ← lift (if int_truth remove then
                                 '(ix, i) ← pop_last (ensure_ints remove);
                                 Ok (ix, Some i)
                               else Ok (indices, None));
    if Nat.ltb 1 (Nat.b2n append + Nat.b2n (opt_int_truth insert)
                  + Nat.b2n (opt_int_truth remove))
    then raise ValueError
    else if lv_truth layout && opt_int_truth remove then raise ValueError
    else txn (layout_txn layout layer flex indices append insert remove).

(** *** [shader] (lines 626-651) *)

Definition resolve_shader {S : ShaderCatalog} (shader : string) : string :=
  match shaders_attr shader with
  | Some code => code
  | None => if colormaps_has shader then shaders_colormap shader else shader
  end.

(** The body of [for layer in state.layers] in [shader]. *)
Definition shade (layer_names : list string) (code : string)
    (l : ng.ManagedLayer F) : ng.ManagedLayer F :=
  if negb (Nat.eqb (length layer_names) 0)
     && negb (existsb (String.eqb (ng.name l)) layer_names)
  then l
  else ng.set_layer l (ng.set_shader (ng.layer l) code).

Definition shader {S : ShaderCatalog} (shader : string) (layer : StrArg)
    : Cmd F unit :=
  let layer_names := ensure_list layer in
  let shader := resolve_shader shader in
  txn (fun state =>
         Ok (ng.set_layers state (map (shade layer_names shader)
                                      (ng.layers state)), tt)).

End Commands.

End LocalNeuroglancer.

(** ** A concrete set of collaborators

    Rational matrices, the six-letter alias table, a named-transform table
    over the orderings of [xyz] and [ras], and a description provider that
    knows a handful of URLs.  The theorems below hold for every instance of
    [Externals]; this one is the instance at which they are evaluated. *)

Module Sample.

Local Open Scope Q_scope.

Definition row_of (c : nat) (data : list Q) (i : nat) : list Q :=
  take c (drop (i * c) data).

Definition rows_of (a : np.ndarray Q) : list (list Q) :=
  match np.shape a with
  | [r; c] => map (row_of c (np.data a)) (seq 0 r)
  | _ => []
  end.

Definition of_rows (c : nat) (rows : list (list Q)) : np.ndarray Q :=
  np.Ndarray [length rows; c] (concat rows).

Definition qsum (l : list Q) : Q := Qred (fold_right Qplus 0 l).

Definition dot (u v : list Q) : Q :=
  qsum (zip_with Qmult u v).

Definition column (rows : list (list Q)) (j : nat) : list Q :=
  map (fun row => nth j row 0) rows.

(** [a @ b] on row lists; [c] is the number of columns of [b]. *)
Definition matmul (a b : list (list Q)) (c : nat) : list (list Q) :=
  map (fun row => map (fun j => dot row (column b j)) (seq 0 c)) a.

Definition sign (k : nat) : Q := if Nat.even k then 1 else -1.

(** Determinant by expansion along the first row; [n] is the size. *)
Fixpoint det (n : nat) (m : list (list Q)) : Q :=
  match n, m with
  | S n', row :: rest =>
      qsum (map (fun j => sign j * nth j row 0
                          * det n' (map (delete j) rest))
                (seq 0 (S n')))
  | _, _ => 1
  end.

Definition minor (i j : nat) (m : list (list Q)) : list (list Q) :=
  map (delete j) (delete i m).

(** [np.linalg.inv] : adjugate over determinant. *)
Definition inv (a : np.ndarray Q) : Res (np.ndarray Q) :=
  match np.shape a with
  | [r; c] =>
      if negb (Nat.eqb r c) then Raise LinAlgError
      else
        let m := rows_of a in
        let d := det r m in
        if Qeq_bool d 0 then Raise LinAlgError
        else Ok (of_rows r
                   (map (fun i =>
                           map (fun j => Qred (sign (i + j)
                                               * det (Nat.pred r) (minor j i m) / d))
                               (seq 0 r))
                        (seq 0 r)))
  | _ => Raise LinAlgError
  end.

Definition alias_table : gmap string string :=
  list_to_map
    [("r", "right"); ("l", "left"); ("a", "anterior"); ("p", "posterior");
     ("i", "inferior"); ("s", "superior")]%string.

(** The anatomical axis (0, 1, 2) and direction of an axis letter. *)
Definition axis_of (letter : ascii) : option (nat * Q) :=
  if Ascii.eqb letter "r" || Ascii.eqb letter "x" then Some (0%nat, 1)
  else if Ascii.eqb letter "l" then Some (0%nat, -1)
  else if Ascii.eqb letter "a" || Ascii.eqb letter "y" then Some (1%nat, 1)
  else if Ascii.eqb letter "p" then Some (1%nat, -1)
  else if Ascii.eqb letter "s" || Ascii.eqb letter "z" then Some (2%nat, 1)
  else if Ascii.eqb letter "i" then Some (2%nat, -1)
  else None.

Definition space_of (compact : string) : ng.CoordinateSpace Q :=
  ng.MkCoordinateSpace
    (map (fun l => default l (alias_table !! l)) (Py.chars compact))
    (map (fun _ => "mm"%string) (Py.chars compact))
    (map (fun _ => 1) (Py.chars compact)).

Definition coefficient (src dst : ascii) : Q :=
  match axis_of src, axis_of dst with
  | Some (i, s), Some (j, t) => if Nat.eqb i j then s * t else 0
  | _, _ => 0
  end.

(** The reorientation from ordering [src] to ordering [dst]: a signed
    permutation with no translation. *)
Definition reorientation (src dst : string) : ng.CoordinateSpaceTransform Q :=
  let s := list_ascii_of_string src in
  let d := list_ascii_of_string dst in
  ng.MkTransform
    (Some (of_rows (S (length s))
             (map (fun o => map (coefficient o) s ++ [0]) d)))
    (Some (space_of src)) (Some (space_of dst)).

Definition supported : list string :=
  ["xyz"; "xzy"; "yxz"; "yzx"; "zxy"; "zyx";
   "ras"; "rsa"; "ars"; "asr"; "sra"; "sar"]%string.

Definition transform_table
    : gmap (string * string) (ng.CoordinateSpaceTransform Q) :=
  list_to_map
    (flat_map (fun src => map (fun dst => ((src, dst), reorientation src dst))
                              supported)
              supported).

(** The homogeneous form of a matrix: square as it is, otherwise with the
    row [0, ..., 0, 1] appended. *)
Definition augment (a : np.ndarray Q) : list (list Q) :=
  match np.shape a with
  | [r; c] =>
      if Nat.eqb r c then rows_of a
      else rows_of a ++ [replicate (Nat.pred c) 0 ++ [1]]
  | _ => []
  end.

(** Modelled from the spec: [ngtools.spaces.compose] is not among the
    sources.  The spec (4.3): the matrix is [Tnew.matrix] times the
    homogeneous augmentation of [Texisting.matrix]; the output dimensions
    are those of [Tnew] and the input dimensions those of [Texisting]; an
    absent [Texisting.matrix] is the identity over its declared space. *)
Definition compose_spec (Tnew Texisting : ng.CoordinateSpaceTransform Q)
    : Res (ng.CoordinateSpaceTransform Q) :=
  match ng.matrix Tnew with
  | None =>
      Ok (ng.MkTransform (ng.matrix Texisting) (ng.inputDimensions Texisting)
            (ng.outputDimensions Tnew))
  | Some a =>
      match np.shape a with
      | [r; c] =>
          let b := match ng.matrix Texisting with
                   | Some b => augment b
                   | None => rows_of (np.eye 0 1 c)
                   end in
          if Nat.eqb (length b) c
             && forallb (fun row => Nat.eqb (length row) c) b
          then Ok (ng.MkTransform
                     (Some (of_rows c (matmul (rows_of a) b c)))
                     (ng.inputDimensions Texisting)
                     (ng.outputDimensions Tnew))
          else Raise ValueError
      | _ => Raise ValueError
      end
  end.

Definition bare (url : string) : ng.Source Q :=
  ng.MkSource None None false url None.

(** The descriptions the provider gives: one volume with a transform, one
    with native dimensions only, one with nothing; anything else is
    unreachable. *)
Definition describe_remote (url : string) : Res (ng.Source Q) :=
  if String.eqb url "nifti://http://host/brain.nii.gz" then
    Ok (ng.MkSource (Some (reorientation "xyz" "ras")) None false url
          (Some (0, 1 # 10, 9 # 10, 1)))
  else if String.eqb url "zarr://http://host/volume.zarr" then
    Ok (ng.MkSource None (Some (space_of "xyz")) false url None)
  else if String.eqb url "zarr://http://host/bare.zarr" then
    Ok (bare url)
  else Raise OSError.

Definition describe_local (filename : string)
    (layer_type : option string) : Res (ng.Source Q) :=
  if String.eqb filename "mgh:///data/t1.mgh" then
    Ok (ng.MkSource None (Some (space_of "xyz")) true filename None)
  else Raise OSError.

Definition parse_float (s : string) : option Q :=
  if String.eqb s "0" then Some 0
  else if String.eqb s "1" then Some 1
  else if String.eqb s "-1" then Some (-1)
  else if String.eqb s "2" then Some 2
  else None.

(** [urlparse(url).fragment] : what follows the first [#]. *)
Fixpoint fragment (url : string) : string :=
  match url with
  | EmptyString => EmptyString
  | String c rest => if Ascii.eqb c "#" then rest else fragment rest
  end.

(** The codec knows the empty document only. *)
Definition loads (s : string) : Res string :=
  if String.eqb s "{}" then Ok s else Raise JSONDecodeError.

(** [del state.layers[name]] for a name no layer has: the index of a
    missing name is [-1], so the last layer goes; [IndexError] when there is
    none. *)
Definition drop_last_layer (name : string) (ls : list (ng.ManagedLayer Q))
    : Res (list (ng.ManagedLayer Q)) :=
  match ls with
  | [] => Raise IndexError
  | _ => Ok (removelast ls)
  end.

Definition empty_state : ng.ViewerState Q :=
  ng.MkViewerState [] (ng.DataPanelLayout "4panel") None.

Definition externals : Externals Q := {|
  fzero := 0;
  fone := 1;
  float_of_string := parse_float;
  float_truth := fun x => negb (Qeq_bool x 0);
  linalg_inv := inv;
  letter2full := alias_table;
  neurotransforms := transform_table;
  compose := compose_spec;
  to_square_other_rank := fun _ => Raise ValueError;
  RemoteSource_from_filename := describe_remote;
  LocalSource_from_filename := describe_local;
  load_affine := fun _ _ _ => Raise OSError;
  remote_protocols := ["http://"; "https://"]%string;
  fileserver_ip := "127.0.0.1";
  fileserver_port := "9123";
  del_missing_layer := drop_last_layer;
  Json := string;
  os_path_exists := fun _ => false;
  json_load_file := fun _ => Raise OSError;
  json_loads := loads;
  json_dumps := fun j => j;
  json_dump_file := fun _ _ => Raise TypeError;
  urlparse_fragment := fragment;
  urlunquote := fun u => u;
  urlquote := fun u => u;
  set_state := fun _ _ => Ok empty_state;
  to_json := fun _ => "{}"%string;
  repr_layout := fun _ => "<layout>"%string
|}.

(** A composition that reads the input space of the transform it is applied
    to, and so raises [AttributeError] when that transform has no input
    dimensions.  With input dimensions it is [compose_spec]. *)
Definition compose_strict (Tnew Texisting : ng.CoordinateSpaceTransform Q)
    : Res (ng.CoordinateSpaceTransform Q) :=
  match ng.inputDimensions Texisting with
  | None => Raise AttributeError
  | Some _ => compose_spec Tnew Texisting
  end.

(** The same collaborators with [compose_strict] for [compose]. *)
Definition strict : Externals Q := {|
  fzero := 0;
  fone := 1;
  float_of_string := parse_float;
  float_truth := fun x => negb (Qeq_bool x 0);
  linalg_inv := inv;
  letter2full := alias_table;
  neurotransforms := transform_table;
  compose := compose_strict;
  to_square_other_rank := fun _ => Raise ValueError;
  RemoteSource_from_filename := describe_remote;
  LocalSource_from_filename := describe_local;
  load_affine := fun _ _ _ => Raise OSError;
  remote_protocols := ["http://"; "https://"]%string;
  fileserver_ip := "127.0.0.1";
  fileserver_port := "9123";
  del_missing_layer := drop_last_layer;
  Json := string;
  os_path_exists := fun _ => false;
  json_load_file := fun _ => Raise OSError;
  json_loads := loads;
  json_dumps := fun j => j;
  json_dump_file := fun _ _ => Raise TypeError;
  urlparse_fragment := fragment;
  urlunquote := fun u => u;
  urlquote := fun u => u;
  set_state := fun _ _ => Ok empty_state;
  to_json := fun _ => "{}"%string;
  repr_layout := fun _ => "<layout>"%string
|}.

(** *** Sample states *)

(** A volume as a layer of the viewer holds it: a data source that is a URL
    and carries neither a transform nor dimensions of its own.  Its native
    dimensions [x, y, z] are those of the description of the URL. *)
Definition volume : ng.Source Q := bare "zarr://http://host/volume.zarr".

(** A volume as [load] builds it for a remote format whose description has
    a transform: the data source carries that transform, here from
    [x, y, z] to right/anterior/superior. *)
Definition oriented : ng.Source Q :=
  ng.MkSource (Some (reorientation "xyz" "ras")) None false
    "nifti://http://host/brain.nii.gz" None.

(** A data source whose transform names its output axes only: neither the
    transform, nor the source, nor the description of its URL gives input
    dimensions. *)
Definition outputs_only : ng.Source Q :=
  ng.MkSource
    (Some (ng.MkTransform None None (Some (space_of "xyz"))))
    None false "zarr://http://host/bare.zarr" None.

Definition image (name : string) (sources : list (ng.Source Q))
    : ng.ManagedLayer Q :=
  ng.MkManagedLayer name (ng.MkLayer true sources None None).

Definition xyz : list string := ["x"; "y"; "z"]%string.

Definition state_of (sources : list (ng.Source Q)) (layout : ng.Layout Q)
    : Session Q :=
  MkSession (ng.MkViewerState [image "brain" sources] layout (Some xyz))
    (Some xyz) [] [].

(** One image layer holding [volume], displayed in its native order. *)
Definition session : Session Q :=
  state_of [volume] (ng.DataPanelLayout "4panel").

(** One image layer holding [volume] and [oriented]. *)
Definition mixed_session : Session Q :=
  state_of [volume; oriented] (ng.DataPanelLayout "4panel").

(** One image layer holding [outputs_only] and, after it, [volume]. *)
Definition unresolved_session : Session Q :=
  state_of [outputs_only; volume] (ng.DataPanelLayout "4panel").

(** A row whose first child is a column holding one panel. *)
Definition nested : ng.Layout Q :=
  ng.StackLayout "row"
    [ng.StackLayout "column"
       [ng.LayerGroupViewer ["brain"%string] (ng.DataPanelLayout "xy") 1];
     ng.LayerGroupViewer ["brain"%string] (ng.DataPanelLayout "3d") 1].

Definition nested_session : Session Q := state_of [volume] nested.

Definition zeros (n : nat) : np.PyVal Q :=
  np.PyList (map np.PyNum (replicate n 0)).

End Sample.

(** ** Notions used in the statements *)

Section Statements.
Context {F : Type} {E : Externals F}.

(** The sources [display] and [transform] visit. *)
Definition image_sources (st : ng.ViewerState F) : list (ng.Source F) :=
  flat_map (fun l => if ng.is_ImageLayer (ng.layer l)
                     then ng.source (ng.layer l) else [])
           (ng.layers st).

(** A source with native dimensions [x, y, z] that carries no transform,
    neither itself nor through its description.  The native dimensions are
    the source's own [dimensions] or, for a source that has none and is no
    local volume (a data source of a layer is a URL), the [dimensions] of
    the description of its URL. *)
Record native_xyz (source : ng.Source F) : Prop := {
  native_no_transform : ng.transform source = None;
  native_no_described_transform :
    LocalNeuroglancer.getTransform source = Ok None;
  native_dimensions :
    exists d,
      ng.names d = ["x"; "y"; "z"]%string
      /\ (ng.dimensions source = Some d
          \/ (ng.dimensions source = None
              /\ ng.is_LocalVolume source = false
              /\ exists described,
                   RemoteSource_from_filename (ng.url source) = Ok described
                   /\ ng.dimensions described = Some d))
}.

(** Nothing yields dimensions: the transform (if any) has no
    [inputDimensions], the source has no [dimensions], and the description,
    when one is asked for, has neither. *)
Record unknown_dimensions (source : ng.Source F) : Prop := {
  unknown_input : ng.transform source ≫= ng.inputDimensions = None;
  unknown_native : ng.dimensions source = None;
  unknown_described :
    ng.is_LocalVolume source = true
    \/ exists d, RemoteSource_from_filename (ng.url source) = Ok d
                 /\ ng.transform d ≫= ng.inputDimensions = None
                 /\ ng.dimensions d = None
}.

(** Lines 300-308 of [display] read as a function: the order stored in
    [self.display_dimensions] once the argument has been validated. *)
Definition requested_order (dimension : StrArg)
    (current : option (list string)) : Res (option (list string)) :=
  match ensure_list dimension with
  | [] => Ok current
  | dimensions =>
      let tokens := LocalNeuroglancer.display_tokens dimensions in
      if Nat.eqb (length tokens) 3
      then Ok (Some (map LocalNeuroglancer.resolve_letter tokens))
      else Raise ValueError
  end.

(** The session [display] leaves behind when no source changes: one commit
    of the unchanged state by the transaction over the layers, one commit
    by [redisplay]. *)
Definition redisplayed (self : Session F) (order : option (list string))
    : Session F :=
  MkSession (ng.set_displayDimensions (viewer self) order) order
    (commits self
       ++ [viewer self; ng.set_displayDimensions (viewer self) order])
    (stdout self).

(** The spec's index path (4.6): "an ordered sequence of child indices
    walked from the root; walking must only pass through StackLayout nodes,
    and an out-of-range index at any step is an addressing error". *)
Fixpoint spec_resolve (node : ng.Layout F) (path : list Z)
    : Res (ng.Layout F) :=
  match path with
  | [] => Ok node
  | i :: path' =>
      ch ← ng.children_of node;
      child ← Py.index ch i;
      spec_resolve child path'
  end.

(** Every source of [st] that satisfies [P] is found unchanged, at its place
    in its layer, in [st']; the layers keep their places and names. *)
Definition sources_fixed (P : ng.Source F -> Prop)
    (st st' : ng.ViewerState F) : Prop :=
  Forall2 (fun l l' =>
             ng.name l' = ng.name l
             /\ Forall2 (fun s s' => P s -> s' = s)
                        (ng.source (ng.layer l)) (ng.source (ng.layer l')))
          (ng.layers st) (ng.layers st').

(** What [display] and [transform] keep of a source: everything but its
    transform. *)
Definition source_kept (s s' : ng.Source F) : Prop :=
  ng.url s' = ng.url s
  /\ ng.dimensions s' = ng.dimensions s
  /\ ng.is_LocalVolume s' = ng.is_LocalVolume s
  /\ ng.quantiles s' = ng.quantiles s.

(** What they keep of a layer: its name, its kind, its shader and controls,
    the number of its sources and what [source_kept] says of each; a layer
    that is no image layer is kept whole. *)
Definition layer_kept (l l' : ng.ManagedLayer F) : Prop :=
  ng.name l' = ng.name l
  /\ ng.is_ImageLayer (ng.layer l') = ng.is_ImageLayer (ng.layer l)
  /\ ng.shader (ng.layer l') = ng.shader (ng.layer l)
  /\ ng.shaderControls (ng.layer l') = ng.shaderControls (ng.layer l)
  /\ Forall2 source_kept (ng.source (ng.layer l)) (ng.source (ng.layer l'))
  /\ (ng.is_ImageLayer (ng.layer l) = false -> l' = l).

Definition state_kept (st st' : ng.ViewerState F) : Prop :=
  Forall2 layer_kept (ng.layers st) (ng.layers st')
  /\ ng.layout st' = ng.layout st.

End Statements.

(** * Properties *)

(** ** The exception monad and the loops *)

Lemma mapRes_fixed {A} (f : A -> Res A) (xs : list A) :
  Forall (fun x => f x = Ok x) xs -> mapRes f xs = Ok xs.
Proof.
  induction 1 as [|x xs Hx _ IH]; simpl; [reflexivity|].
  rewrite Hx. simpl. rewrite IH. reflexivity.
Qed.

Lemma bind_Ok {A B} (m : Res A) (f : A -> Res B) (b : B) :
  m ≫= f = Ok b -> exists a, m = Ok a /\ f a = Ok b.
Proof. destruct m as [a|e]; [eauto|discriminate]. Qed.

Lemma mapRes_Forall2 {A B} (f : A -> Res B) (xs : list A) (ys : list B) :
  mapRes f xs = Ok ys -> Forall2 (fun x y => f x = Ok y) xs ys.
Proof.
  revert ys. induction xs as [|x xs IH]; intros ys; cbn [mapRes].
  - intros [= <-]. constructor.
  - intros H. apply bind_Ok in H as (y & Hy & H).
    apply bind_Ok in H as (ys' & Hys & [= <-]).
    constructor; [exact Hy|apply IH, Hys].
Qed.

(** One element that raises makes the whole loop raise. *)
Lemma mapRes_raises {A B} (f : A -> Res B) (xs : list A) (x : A) (e : PyError) :
  In x xs -> f x = Raise e -> exists e', mapRes f xs = Raise e'.
Proof.
  intros Hin Hx. induction xs as [|y xs IH]; [destruct Hin|].
  cbn [mapRes]. destruct Hin as [->|Hin].
  - rewrite Hx. eexists; reflexivity.
  - destruct (f y); [|eexists; reflexivity]. cbn [mbind Res_bind].
    destruct (IH Hin) as [e' ->]. eexists; reflexivity.
Qed.

Lemma mapRes_length {A B} (f : A -> Res B) (xs : list A) (ys : list B) :
  mapRes f xs = Ok ys -> length ys = length xs.
Proof.
  revert ys. induction xs as [|x xs IH]; intros ys; simpl.
  - intros [= <-]. reflexivity.
  - destruct (f x) as [y|e]; simpl; [|discriminate].
    destruct (mapRes f xs) as [ys'|e]; simpl; [|discriminate].
    intros [= <-]. simpl. f_equal. apply IH. reflexivity.
Qed.

Lemma mapRes_scalars {F} (parse : string -> option F) (l : list F) :
  mapRes (np.asarray parse) (map np.PyNum l)
  = Ok (map (fun x => np.Ndarray [] [x]) l).
Proof.
  induction l as [|x l IH]; simpl; [reflexivity|].
  rewrite IH. reflexivity.
Qed.

Lemma scalars_same_shape {F} (l : list F) (sh : list nat) :
  sh = [] ->
  forallb (fun r' : np.ndarray F => bool_decide (np.shape r' = sh))
          (map (fun x => np.Ndarray [] [x]) l) = true.
Proof.
  intros ->. induction l as [|x l IH]; simpl; [reflexivity|].
  rewrite IH. reflexivity.
Qed.

Lemma concat_scalars {F} (l : list F) :
  concat (map np.data (map (fun x => np.Ndarray [] [x]) l)) = l.
Proof. induction l as [|x l IH]; simpl; congruence. Qed.

(** [np.asarray] of a flat list of numbers is the 1-D array of that list. *)
Lemma asarray_flat {F} (parse : string -> option F) (l : list F) :
  np.asarray parse (np.PyList (map np.PyNum l)) = Ok (np.Ndarray [length l] l).
Proof.
  cbn [np.asarray]. rewrite mapRes_scalars. cbn [mbind Res_bind].
  destruct l as [|x l]; [reflexivity|].
  pose proof (scalars_same_shape (x :: l) [] eq_refl) as Hs.
  pose proof (concat_scalars (x :: l)) as Hc.
  cbn [map np.shape] in Hs, Hc |- *. rewrite Hs, Hc.
  cbn [length]. rewrite length_map. reflexivity.
Qed.

(** ** Flat-matrix reshape *)

Lemma flat_side_pronic (n : nat) :
  LocalNeuroglancer.flat_side (n * (n + 1)) = n.
Proof.
  unfold LocalNeuroglancer.flat_side.
  replace (1 + 4 * (n * (n + 1))) with ((1 + n * 2) * (1 + n * 2)) by lia.
  rewrite Nat.sqrt_square.
  rewrite Nat.div_add by lia. reflexivity.
Qed.

Lemma pronic_12 (n : nat) : n * (n + 1) = 12 -> n = 3.
Proof.
  intros H. destruct (Nat.le_gt_cases n 3) as [Hle|Hgt].
  - destruct n as [|[|[|[|n]]]]; simpl in H; lia.
  - assert (4 * (4 + 1) <= n * (n + 1)) by (apply Nat.mul_le_mono; lia). lia.
Qed.

Lemma pronic_16 (n : nat) : n * (n + 1) <> 16.
Proof.
  intros H. destruct (Nat.le_gt_cases n 3) as [Hle|Hgt].
  - destruct n as [|[|[|[|n]]]]; simpl in H; lia.
  - assert (4 * (4 + 1) <= n * (n + 1)) by (apply Nat.mul_le_mono; lia). lia.
Qed.

Lemma reshape_flat_pronic {F} (l : list F) (n : nat) :
  length l = n * (n + 1) ->
  LocalNeuroglancer.reshape_flat (np.Ndarray [length l] l)
  = Ok (np.Ndarray [n; n + 1] l).
Proof.
  intros Hn. unfold LocalNeuroglancer.reshape_flat, np.len. cbn [np.shape mbind Res_bind].
  destruct (Nat.eqb_spec (length l) 12) as [H12|H12].
  { assert (n = 3) as -> by (apply pronic_12; lia). unfold np.reshape. cbn [np.data].
    rewrite H12. reflexivity. }
  destruct (Nat.eqb_spec (length l) 16) as [H16|H16];
    [exfalso; apply (pronic_16 n); lia|].
  rewrite Hn, flat_side_pronic. unfold np.reshape. cbn [np.data].
  rewrite Hn, Nat.eqb_refl. reflexivity.
Qed.

Lemma reshape_flat_16 {F} (l : list F) :
  length l = 16 ->
  LocalNeuroglancer.reshape_flat (np.Ndarray [length l] l)
  = Ok (np.Ndarray [4; 4] l).
Proof.
  intros H. unfold LocalNeuroglancer.reshape_flat, np.len, np.reshape.
  cbn [np.shape np.data mbind Res_bind]. rewrite H. reflexivity.
Qed.

Lemma reshape_flat_no_solution {F} (l : list F) :
  length l <> 16 -> (forall n, length l <> n * (n + 1)) ->
  LocalNeuroglancer.reshape_flat (np.Ndarray [length l] l) = Raise ValueError.
Proof.
  intros H16 Hno. unfold LocalNeuroglancer.reshape_flat, np.len.
  cbn [np.shape mbind Res_bind].
  destruct (Nat.eqb_spec (length l) 12) as [H12|_];
    [exfalso; apply (Hno 3); rewrite H12; reflexivity|].
  destruct (Nat.eqb_spec (length l) 16) as [?|_]; [contradiction|].
  unfold np.reshape. cbn [np.data].
  destruct (Nat.eqb_spec (length l)
              (LocalNeuroglancer.flat_side (length l)
               * (LocalNeuroglancer.flat_side (length l) + 1))) as [Heq|_];
    [exfalso; exact (Hno _ Heq)|reflexivity].
Qed.

Section Reshape.
Context {F : Type} {E : Externals F}.

(** A flat list of numbers of length other than 1 reaches the reshape as
    the 1-D array of its entries. *)
Lemma prepare_matrix_flat (l : list F) (inv : bool) (mov fix_ : option string) :
  length l <> 1 ->
  LocalNeuroglancer.prepare_matrix (np.PyList (map np.PyNum l)) inv mov fix_
  = (a ← LocalNeuroglancer.reshape_flat (np.Ndarray [length l] l);
     a ← LocalNeuroglancer.to_square a;
     a ← (if inv then linalg_inv a else Ok a);
     np.drop_last a).
Proof.
  intros Hlen. unfold LocalNeuroglancer.prepare_matrix.
  assert (Hun : LocalNeuroglancer.unwrap_single (np.PyList (map np.PyNum l))
                = np.PyList (map np.PyNum l)).
  { destruct l as [|x [|y l]]; simpl in *; congruence. }
  rewrite Hun, asarray_flat. reflexivity.
Qed.

(** C1 (as amended).  A flat sequence of length 12 is reshaped to 3x4, of
    length 16 to 4x4, of length 6 to 2x3 and of length 20 to 4x5
    (20 = 4 * 5); in general a length [n * (n + 1)] gives [n] rows of
    [n + 1] entries, and a length other than 16 that is no [n * (n + 1)]
    makes the reshape, and with it the whole preparation of the matrix,
    raise [ValueError]. *)
Theorem reshape_flat_shapes (l : list F) :
  let a := np.Ndarray [length l] l in
  (length l = 12 -> LocalNeuroglancer.reshape_flat a = Ok (np.Ndarray [3; 4] l)) /\
  (length l = 16 -> LocalNeuroglancer.reshape_flat a = Ok (np.Ndarray [4; 4] l)) /\
  (length l = 6 -> LocalNeuroglancer.reshape_flat a = Ok (np.Ndarray [2; 3] l)) /\
  (length l = 20 -> LocalNeuroglancer.reshape_flat a = Ok (np.Ndarray [4; 5] l)) /\
  (forall n, length l = n * (n + 1) ->
             LocalNeuroglancer.reshape_flat a = Ok (np.Ndarray [n; n + 1] l)) /\
  (length l <> 16 -> (forall n, length l <> n * (n + 1)) ->
     LocalNeuroglancer.reshape_flat a = Raise ValueError /\
     forall inv mov fix_,
       length l <> 1 ->
       LocalNeuroglancer.prepare_matrix (np.PyList (map np.PyNum l)) inv mov fix_
       = Raise ValueError).
Proof.
  cbv zeta. repeat split.
  - intros H. apply (reshape_flat_pronic l 3). rewrite H. reflexivity.
  - apply reshape_flat_16.
  - intros H. apply (reshape_flat_pronic l 2). rewrite H. reflexivity.
  - intros H. apply (reshape_flat_pronic l 4). rewrite H. reflexivity.
  - apply reshape_flat_pronic.
  - apply reshape_flat_no_solution; assumption.
  - intros inv mov fix_ H1. rewrite prepare_matrix_flat by assumption.
    rewrite reshape_flat_no_solution by assumption. reflexivity.
Qed.

End Reshape.

(** ** [display] *)

Section Display.
Context {F : Type} {E : Externals F}.
Import LocalNeuroglancer.

Lemma cmd_bind_unfold {A B} (m : Cmd F A) (f : A -> Cmd F B)
    (self : Session F) :
  (m ≫= f) self
  = match m self with
    | (self', Ok a) => f a self'
    | (self', Raise e) => (self', Raise e)
    end.
Proof. reflexivity. Qed.

Lemma session_eta (self : Session F) :
  MkSession (viewer self) (display_dimensions self) (commits self)
    (stdout self) = self.
Proof. destruct self; reflexivity. Qed.

Lemma set_layers_same (st : ng.ViewerState F) :
  ng.set_layers st (ng.layers st) = st.
Proof. destruct st; reflexivity. Qed.

Lemma set_source_same (l : ng.ManagedLayer F) :
  ng.set_layer l (ng.set_source (ng.layer l) (ng.source (ng.layer l))) = l.
Proof. destruct l as [n []]; reflexivity. Qed.

(** What [display] does, read off its definition: validate the argument,
    store the order, compact it, run the transaction over the layers,
    then let [redisplay] commit [displayDimensions]. *)
Lemma display_unfold (dimension : StrArg) (self : Session F) :
  display dimension self =
  match requested_order dimension (display_dimensions self) with
  | Raise e => (self, Raise e)
  | Ok order =>
      let self1 := MkSession (viewer self) order (commits self) (stdout self) in
      match match order with
            | Some d => compactNames d
            | None => Raise TypeError
            end with
      | Raise e => (self1, Raise e)
      | Ok names =>
          match mapRes (on_image_sources (display_source names))
                       (ng.layers (viewer self)) with
          | Raise e => (self1, Raise e)
          | Ok ls =>
              let st1 := ng.set_layers (viewer self) ls in
              let st2 := ng.set_displayDimensions st1 order in
              (MkSession st2 order (commits self ++ [st1; st2]) (stdout self),
               Ok tt)
          end
      end
  end.
Proof.
  unfold display, requested_order.
  destruct (ensure_list dimension) as [|d ds] eqn:Hd.
  - cbv beta iota zeta
        delta [mbind Cmd_bind mret Cmd_ret get_display_dimensions lift].
    rewrite session_eta.
    destruct (display_dimensions self) as [dd|] eqn:Hdd;
      [destruct (compactNames dd) as [names|e] eqn:Hn|]; try reflexivity.
    unfold txn, redisplay.
    cbv beta iota zeta
        delta [mbind Cmd_bind mret Cmd_ret get_display_dimensions txn].
    cbn [viewer display_dimensions commits stdout].
    fold (@mbind Res _).
    destruct (mapRes _ _) as [ls|e]; [|reflexivity].
    cbn. rewrite <- app_assoc, Hdd. reflexivity.
  - set (tokens := display_tokens (d :: ds)).
    destruct (Nat.eqb (length tokens) 3) eqn:Hlen; cbn [negb];
      [|reflexivity].
    cbv beta iota zeta
        delta [mbind Cmd_bind set_display_dimensions get_display_dimensions
               lift].
    cbn [display_dimensions].
    destruct (compactNames _) as [names|e]; [|reflexivity].
    unfold txn, redisplay.
    cbv beta iota zeta
        delta [mbind Cmd_bind mret Cmd_ret get_display_dimensions txn].
    cbn [viewer display_dimensions commits stdout].
    destruct (mapRes _ _) as [ls|e]; [|reflexivity].
    cbn. rewrite <- app_assoc. reflexivity.
Qed.

(** *** The argument of [display] *)

Lemma resolve_letters (tokens : list string) :
  Forall2 (fun token name =>
             name = match letter2full !! Py.lower token with
                    | Some full => full
                    | None => token
                    end)
          tokens (map resolve_letter tokens).
Proof.
  induction tokens as [|t ts IH]; simpl; constructor; [|exact IH].
  unfold resolve_letter. destruct (letter2full !! Py.lower t); reflexivity.
Qed.

(** C6.  A non-empty dimension argument is split into tokens (a single
    token into its letters); each token is looked up lower-cased in the
    alias table and kept as it is when the table does not know it.  Unless
    there are exactly 3 tokens, hence 3 resolved names, [display] raises
    [ValueError] and leaves the session as it found it: stored order,
    viewer state and commit log. *)
Theorem display_requires_three_names (dimension : StrArg) (self : Session F) :
  ensure_list dimension <> [] ->
  let tokens := display_tokens (ensure_list dimension) in
  (length tokens <> 3 -> display dimension self = (self, Raise ValueError)) /\
  (length tokens = 3 ->
   exists stored,
     display_dimensions (fst (display dimension self)) = Some stored
     /\ length stored = 3
     /\ Forall2 (fun token name =>
                   name = match letter2full !! Py.lower token with
                          | Some full => full
                          | None => token
                          end)
                tokens stored).
Proof.
  intros Hne tokens. rewrite display_unfold. unfold requested_order.
  destruct (ensure_list dimension) as [|d ds] eqn:Hd; [congruence|].
  fold tokens. split; intros Hlen.
  - apply Nat.eqb_neq in Hlen. rewrite Hlen. reflexivity.
  - rewrite Hlen. cbn [Nat.eqb]. cbv zeta.
    exists (map resolve_letter tokens). split; [|split].
    + destruct (compactNames _); [destruct (mapRes _ _)|]; reflexivity.
    + rewrite length_map. exact Hlen.
    + apply resolve_letters.
Qed.

(** *** Sources that [display] leaves alone *)

Lemma on_image_sources_fixed (body : ng.Source F -> Res (ng.Source F))
    (l : ng.ManagedLayer F) :
  Forall (fun s => body s = Ok s)
         (if ng.is_ImageLayer (ng.layer l) then ng.source (ng.layer l) else []) ->
  on_image_sources body l = Ok l.
Proof.
  intros H. unfold on_image_sources.
  destruct (ng.is_ImageLayer (ng.layer l)); [|reflexivity].
  rewrite (mapRes_fixed _ _ H). cbn [mbind Res_bind].
  rewrite set_source_same. reflexivity.
Qed.

Lemma layers_fixed (body : ng.Source F -> Res (ng.Source F))
    (st : ng.ViewerState F) :
  Forall (fun s => body s = Ok s) (image_sources st) ->
  mapRes (on_image_sources body) (ng.layers st) = Ok (ng.layers st).
Proof.
  unfold image_sources. intros H. apply mapRes_fixed.
  induction (ng.layers st) as [|l ls IH]; [constructor|].
  cbn [flat_map] in H. apply Forall_app in H as [Hl Hls].
  constructor; [apply on_image_sources_fixed; exact Hl|apply IH; exact Hls].
Qed.

(** [display] when the transaction over the layers changes no source. *)
Lemma display_fixed (dimension : StrArg) (self : Session F)
    (stored : list string) (names : string) :
  requested_order dimension (display_dimensions self) = Ok (Some stored) ->
  compactNames stored = Ok names ->
  Forall (fun s => display_source names s = Ok s) (image_sources (viewer self)) ->
  display dimension self = (redisplayed self (Some stored), Ok tt).
Proof.
  intros Horder Hnames Hfixed. rewrite display_unfold, Horder. cbv zeta.
  rewrite Hnames, (layers_fixed _ _ Hfixed), set_layers_same. reflexivity.
Qed.

Lemma getDimensions_native (source : ng.Source F) :
  native_xyz source ->
  exists d, getDimensions source = Ok (Some d)
            /\ ng.names d = ["x"; "y"; "z"]%string.
Proof.
  intros [Ht Hgt (d & Hn & Hd)]. exists d. split; [|exact Hn].
  unfold getDimensions. cbn [getDimensions_rec].
  rewrite Ht. cbn [mbind option_bind].
  destruct Hd as [Hd|(Hd & Hlocal & described & Hdesc & Hdd)];
    rewrite Hd; [reflexivity|].
  unfold getTransform in Hgt. rewrite Ht, Hlocal, Hdesc in Hgt.
  cbn [negb mbind Res_bind] in Hgt. injection Hgt as Hdt.
  rewrite Hlocal, Hdesc, Hdt. cbn [negb andb mbind option_bind].
  rewrite Hdd. reflexivity.
Qed.

(** A source with native dimensions [x, y, z] and no transform is left as
    it is whenever every letter of the requested order is one of [xyz]. *)
Lemma display_source_native (names : string) (source : ng.Source F) :
  native_xyz source -> all_in names "xyz" = true ->
  display_source names source = Ok source.
Proof.
  intros Hnative Hall.
  destruct (getDimensions_native source Hnative) as (d & Hd & Hn).
  destruct Hnative as [Ht Hgt _]. unfold display_source.
  rewrite Hgt. cbn [mbind Res_bind].
  replace (bool_decide (is_Some (@None (ng.CoordinateSpaceTransform F))))
    with false by (symmetry; apply bool_decide_eq_false; intros [? [=]]).
  unfold reorientUsingDimensions.
  rewrite Hd. cbn [mbind Res_bind].
  rewrite Hn. change (compactNames ["x"; "y"; "z"]) with (@Ok string "xyz").
  cbn [mbind Res_bind]. rewrite Hall. reflexivity.
Qed.

Lemma sources_fixed_refl (P : ng.Source F -> Prop) (st : ng.ViewerState F) :
  sources_fixed P st st.
Proof.
  unfold sources_fixed. induction (ng.layers st) as [|l ls IH];
    constructor; [|exact IH].
  split; [reflexivity|].
  induction (ng.source (ng.layer l)); constructor; auto.
Qed.

(** The loop over the layers leaves in place every source that its body
    leaves alone, whatever it does to the others. *)
Lemma layers_frame (body : ng.Source F -> Res (ng.Source F))
    (P : ng.Source F -> Prop) (st : ng.ViewerState F)
    (ls : list (ng.ManagedLayer F)) :
  (forall s, P s -> body s = Ok s) ->
  mapRes (on_image_sources body) (ng.layers st) = Ok ls ->
  sources_fixed P st (ng.set_layers st ls).
Proof.
  intros Hbody Hls. unfold sources_fixed. cbn [ng.set_layers ng.layers].
  apply mapRes_Forall2 in Hls.
  induction Hls as [|l l' ls0 ls' Hl _ IH]; constructor; [|exact IH].
  unfold on_image_sources in Hl.
  destruct (ng.is_ImageLayer (ng.layer l)).
  - apply bind_Ok in Hl as (ss & Hss & [= <-]).
    cbn [ng.set_layer ng.set_source ng.name ng.layer ng.source].
    split; [reflexivity|]. apply mapRes_Forall2 in Hss.
    induction Hss as [|x y xs ys Hxy _ IHs]; constructor; [|exact IHs].
    intros Hx. rewrite (Hbody x Hx) in Hxy. congruence.
  - injection Hl as <-. split; [reflexivity|].
    induction (ng.source (ng.layer l)); constructor; auto.
Qed.

(** C2 (as amended).  With an alias table that does not rename [x], [y]
    or [z], [display(['z','y','x'])] sets no transform on a source of native
    dimensions [x, y, z] that carries none, whether the dimensions are its
    own or those of its description, and whatever the other sources of the
    session are: every letter of [zyx] occurs among [xyz], so the source is
    found unchanged at its place.  The stored order becomes [z, y, x], and
    when the call succeeds the committed [displayDimensions] equals it.
    When all image sources are of that kind the call succeeds and changes
    nothing but [displayDimensions]. *)
Theorem display_zyx_keeps_native_sources (self : Session F) :
  letter2full !! "x" = None ->
  letter2full !! "y" = None ->
  letter2full !! "z" = None ->
  let r := display (ArgList ["z"; "y"; "x"]) self in
  let self' := fst r in
  display_dimensions self' = Some ["z"; "y"; "x"]
  /\ sources_fixed native_xyz (viewer self) (viewer self')
  /\ (snd r = Ok tt ->
      ng.displayDimensions (viewer self') = display_dimensions self')
  /\ (Forall native_xyz (image_sources (viewer self)) ->
      r = (redisplayed self (Some ["z"; "y"; "x"]), Ok tt)
      /\ image_sources (viewer self') = image_sources (viewer self)
      /\ Forall (fun s => ng.transform s = None)
                (image_sources (viewer self'))).
Proof.
  intros Hx Hy Hz. cbv zeta.
  assert (Horder : requested_order (ArgList ["z"; "y"; "x"])
                     (display_dimensions self) = Ok (Some ["z"; "y"; "x"])).
  { unfold requested_order. cbn [ensure_list display_tokens length Nat.eqb map].
    unfold resolve_letter.
    change (Py.lower "z") with "z". change (Py.lower "y") with "y".
    change (Py.lower "x") with "x". rewrite Hx, Hy, Hz. reflexivity. }
  assert (Hnames : compactNames ["z"; "y"; "x"] = Ok "zyx") by reflexivity.
  assert (Hbody : forall s, native_xyz s -> display_source "zyx" s = Ok s).
  { intros s Hs. apply display_source_native; [exact Hs|reflexivity]. }
  split; [|split; [|split]].
  - rewrite display_unfold, Horder. cbv zeta. rewrite Hnames.
    destruct (mapRes _ _); reflexivity.
  - rewrite display_unfold, Horder. cbv zeta. rewrite Hnames.
    destruct (mapRes _ _) as [ls|e] eqn:Hls; cbn [fst viewer];
      [|apply sources_fixed_refl].
    apply (layers_frame _ _ _ _ Hbody) in Hls.
    unfold sources_fixed in *. exact Hls.
  - rewrite display_unfold, Horder. cbv zeta. rewrite Hnames.
    destruct (mapRes _ _); cbn [fst snd]; [reflexivity|discriminate].
  - intros Hsrc.
    assert (Hrun : display (ArgList ["z"; "y"; "x"]) self
                   = (redisplayed self (Some ["z"; "y"; "x"]), Ok tt)).
    { apply display_fixed with (names := "zyx");
        [exact Horder|exact Hnames|].
      eapply Forall_impl; [exact Hsrc|]. exact Hbody. }
    rewrite Hrun. cbn [fst]. repeat split.
    eapply Forall_impl; [exact Hsrc|]. intros s Hs. apply Hs.
Qed.

(** *** The two transactions of [display] *)

(** C5 (as amended).  A call to [display] that succeeds commits twice: the
    transaction over the layers commits the per-source transform edits
    while [displayDimensions] (and the layout) are still those of the state
    before the call; [redisplay] then commits, in a second transaction, the
    same layers with [displayDimensions] set to the stored order. *)
Theorem display_commits_twice (dimension : StrArg) (self self' : Session F) :
  display dimension self = (self', Ok tt) ->
  exists st1,
    commits self' = commits self ++ [st1; viewer self']
    /\ ng.displayDimensions st1 = ng.displayDimensions (viewer self)
    /\ ng.layout st1 = ng.layout (viewer self)
    /\ ng.layers (viewer self') = ng.layers st1
    /\ viewer self' = ng.set_displayDimensions st1 (display_dimensions self').
Proof.
  rewrite display_unfold.
  destruct (requested_order _ _) as [order|e]; [|intros [= ]].
  cbv zeta.
  destruct (match order with Some d => compactNames d | None => _ end)
    as [names|e]; [|intros [= ]].
  destruct (mapRes _ _) as [ls|e]; [|intros [= ]].
  intros [= <-]. exists (ng.set_layers (viewer self) ls).
  cbn. repeat split.
Qed.

End Display.

(** ** Resolving the dimensions of a source *)

Section Resolver.
Context {F : Type} {E : Externals F}.
Import LocalNeuroglancer.

(** A reentrant call never asks the provider. *)
Lemma getDimensions_rec_reentrant (fuel : nat) (source : ng.Source F) :
  exists r, getDimensions_rec (S fuel) source true = Some ([], r).
Proof.
  cbn [getDimensions_rec].
  destruct (ng.transform source ≫= ng.inputDimensions); [eauto|].
  destruct (ng.dimensions source); [eauto|].
  cbn [negb andb]. eauto.
Qed.

(** With two units of fuel or more the resolution returns, having asked
    the provider at most once, and never from a reentrant call. *)
Lemma getDimensions_rec_bounded (fuel : nat) (source : ng.Source F)
    (_reentrant : bool) :
  2 <= fuel ->
  exists urls r,
    getDimensions_rec fuel source _reentrant = Some (urls, r)
    /\ length urls <= 1
    /\ (_reentrant = true -> urls = []).
Proof.
  intros Hfuel. destruct fuel as [|[|fuel]]; [lia|lia|].
  destruct _reentrant.
  { destruct (getDimensions_rec_reentrant (S fuel) source) as [r Hr].
    exists [], r. rewrite Hr. repeat split. simpl. lia. }
  cbn [getDimensions_rec].
  destruct (ng.transform source ≫= ng.inputDimensions);
    [eexists [], _; repeat split; simpl; lia|].
  destruct (ng.dimensions source);
    [eexists [], _; repeat split; simpl; lia|].
  cbn [negb andb].
  destruct (ng.is_LocalVolume source); cbn [negb];
    [eexists [], _; repeat split; simpl; lia|].
  destruct (RemoteSource_from_filename (ng.url source)) as [mysource|e];
    [|eexists [_], _; repeat split; [simpl; lia|discriminate]].
  destruct (ng.transform mysource ≫= ng.inputDimensions);
    [|destruct (ng.dimensions mysource)];
    cbn [negb andb]; eexists [_], _;
    (repeat split; [simpl; lia|discriminate]).
Qed.

(** More fuel than two changes nothing. *)
Lemma getDimensions_rec_fuel (fuel : nat) (source : ng.Source F)
    (_reentrant : bool) :
  2 <= fuel ->
  getDimensions_rec fuel source _reentrant
  = getDimensions_rec 2 source _reentrant.
Proof.
  intros Hfuel. destruct fuel as [|[|fuel]]; [lia|lia|].
  cbn [getDimensions_rec].
  destruct (ng.transform source ≫= ng.inputDimensions); [reflexivity|].
  destruct (ng.dimensions source); [reflexivity|].
  destruct (negb _reentrant && negb (ng.is_LocalVolume source));
    [|reflexivity].
  destruct (RemoteSource_from_filename (ng.url source)) as [mysource|e];
    [|reflexivity].
  destruct (ng.transform mysource ≫= ng.inputDimensions); [reflexivity|].
  destruct (ng.dimensions mysource); reflexivity.
Qed.

Lemma getDimensions_unknown (source : ng.Source F) :
  unknown_dimensions source -> getDimensions source = Ok None.
Proof.
  intros [Hin Hnat Hdesc]. unfold getDimensions. cbn [getDimensions_rec].
  rewrite Hin, Hnat. cbn [negb andb].
  destruct Hdesc as [Hlocal|(d & Hd & Hdin & Hdnat)].
  - rewrite Hlocal. reflexivity.
  - destruct (ng.is_LocalVolume source); cbn [negb]; [reflexivity|].
    rewrite Hd, Hdin, Hdnat. reflexivity.
Qed.

(** One source on which the body raises makes the loop over the layers
    raise. *)
Lemma layers_raise (body : ng.Source F -> Res (ng.Source F))
    (st : ng.ViewerState F) (source : ng.Source F) (e : PyError) :
  In source (image_sources st) -> body source = Raise e ->
  exists e', mapRes (on_image_sources body) (ng.layers st) = Raise e'.
Proof.
  unfold image_sources. intros Hin Hbody.
  apply in_flat_map in Hin as (l & Hl & Hin).
  assert (Hlayer : exists e', on_image_sources body l = Raise e').
  { unfold on_image_sources.
    destruct (ng.is_ImageLayer (ng.layer l)); [|destruct Hin].
    destruct (mapRes_raises body _ _ _ Hin Hbody) as [e' ->].
    eexists; reflexivity. }
  destruct Hlayer as [e' He'].
  apply (mapRes_raises _ _ _ _ Hl He').
Qed.

(** C7 (defect in the code).  When nothing yields the dimensions of a
    source the resolution returns [None].  [reorientUsingDimensions] then
    returns early, but [reorientUsingTransform] does not ask: for a source
    with a transform whose output axes differ from the requested ones it
    builds [T0] with [input_dimensions=None] and hands it to [compose].  So
    such a source is not skipped: it gets the transform [compose] returns,
    and when [compose] raises, [display] raises with it.  Then nothing is
    committed, no other source is reoriented and [displayDimensions] keeps
    its value, while the stored order is already the requested one. *)
Theorem display_composes_on_unknown_dimensions
    (dimension : StrArg) (self : Session F) (order : list string)
    (names : string) (source : ng.Source F)
    (t : ng.CoordinateSpaceTransform F) (odims : ng.CoordinateSpace F)
    (onames : string) (T : ng.CoordinateSpaceTransform F) :
  requested_order dimension (display_dimensions self) = Ok (Some order) ->
  compactNames order = Ok names ->
  In source (image_sources (viewer self)) ->
  unknown_dimensions source ->
  getTransform source = Ok (Some t) ->
  ng.outputDimensions t = Some odims ->
  compactNames (ng.names odims) = Ok onames ->
  all_in names onames = false ->
  neurotransforms !! (onames, names) = Some T ->
  let T0 := ng.MkTransform
              (Some (default (np.eye fzero fone 4) (ng.matrix t)))
              None (Some odims) in
  getDimensions source = Ok None
  /\ display_source names source
     = (t' ← compose T T0; Ok (ng.set_transform source t'))
  /\ (forall e, compose T T0 = Raise e ->
      exists e',
        display dimension self
        = (MkSession (viewer self) (Some order) (commits self) (stdout self),
           Raise e')).
Proof.
  intros Horder Hnames Hin Hunk Hgt Hodims Honames Hall HT T0.
  pose proof (getDimensions_unknown source Hunk) as Hdims.
  assert (Hsrc : display_source names source
                 = (t' ← compose T T0; Ok (ng.set_transform source t'))).
  { unfold display_source, reorientUsingTransform, neurotransforms_at.
    rewrite Hgt. cbn [mbind Res_bind].
    replace (bool_decide (is_Some (Some t))) with true
      by (symmetry; apply bool_decide_eq_true; eauto).
    rewrite Hdims. cbn [mbind Res_bind].
    rewrite Hodims. cbn [mbind Res_bind].
    rewrite Honames. cbn [mbind Res_bind].
    rewrite Hall, HT. cbn [mbind Res_bind]. fold T0.
    destruct (compose T T0); reflexivity. }
  split; [exact Hdims|]. split; [exact Hsrc|].
  intros e He.
  assert (Hraise : display_source names source = Raise e)
    by (rewrite Hsrc, He; reflexivity).
  destruct (layers_raise _ _ _ _ Hin Hraise) as [e' He'].
  exists e'. rewrite display_unfold, Horder. cbv zeta.
  rewrite Hnames, He'. reflexivity.
Qed.

End Resolver.

(** ** [unload] and [load] *)

Section LoadUnload.
Context {F : Type} {E : Externals F}.
Import LocalNeuroglancer.

Lemma del_layers_all (ls : list (ng.ManagedLayer F)) :
  del_layers (map ng.name ls) ls = Ok [].
Proof.
  induction ls as [|l ls IH]; [reflexivity|].
  cbn [map del_layers]. unfold layers_delitem. cbn [del_layer].
  rewrite String.eqb_refl. cbn [mbind Res_bind]. exact IH.
Qed.

(** C9.  [unload] without layer names ([None], an empty string or an empty
    list) succeeds and leaves no layer in the viewer state; layout and
    [displayDimensions] are those of before.  It commits twice: the
    transaction that reads the names, then the one that deletes. *)
Theorem unload_all (layer : StrArg) (self : Session F) :
  ensure_list layer = [] ->
  unload layer self
  = (MkSession (ng.set_layers (viewer self) []) (display_dimensions self)
       (commits self ++ [viewer self; ng.set_layers (viewer self) []])
       (stdout self), Ok tt)
  /\ ng.layers (viewer (fst (unload layer self))) = [].
Proof.
  intros Hnone.
  assert (Hrun : unload layer self
                 = (MkSession (ng.set_layers (viewer self) [])
                      (display_dimensions self)
                      (commits self
                         ++ [viewer self; ng.set_layers (viewer self) []])
                      (stdout self), Ok tt)).
  { unfold unload. rewrite Hnone.
    cbv beta iota zeta delta [mbind Cmd_bind txn].
    cbn [viewer display_dimensions commits stdout].
    fold (@mbind Res _). rewrite del_layers_all. cbn [mbind Res_bind].
    rewrite <- app_assoc. reflexivity. }
  rewrite Hrun. split; reflexivity.
Qed.

(** C10.  [load] with a name and more than one filename raises
    [ValueError] at once: no layer is added, the stored order is not
    touched, nothing is committed. *)
Theorem load_one_name_many_files (filename : StrArg) (name : option string)
    (transform : option (np.PyVal F)) (self : Session F) :
  str_truth name = true ->
  1 < length (ensure_list filename) ->
  load filename name transform self = (self, Raise ValueError).
Proof.
  intros Hname Hmany. unfold load. rewrite Hname.
  apply Nat.ltb_lt in Hmany. rewrite Hmany. reflexivity.
Qed.

End LoadUnload.

(** ** [transform], [state] and [layout] *)

Section Commands.
Context {F : Type} {E : Externals F}.
Import LocalNeuroglancer.

(** When the matrix cannot be prepared, [transform] stops after
    [display('ras')] has run: the session is the one that call left. *)
Lemma transform_stops_after_display (t : np.PyVal F) (layer : StrArg)
    (inv : bool) (mov fix_ : option string) (self self1 : Session F)
    (e : PyError) :
  display (ArgStr "ras") self = (self1, Ok tt) ->
  prepare_matrix t inv mov fix_ = Raise e ->
  transform t layer inv mov fix_ self = (self1, Raise e).
Proof.
  intros Hdisplay Hmatrix. unfold transform.
  cbv beta iota zeta delta [mbind Cmd_bind get_display_dimensions lift].
  rewrite Hdisplay, Hmatrix. reflexivity.
Qed.

(** With the [url] flag set, what [state] loads does not depend on the
    fragment of [load]: [load] is opened as a file when it exists or starts
    with a remote protocol, and otherwise the test ['://' in url] on the
    flag raises [TypeError]. *)
Lemma state_load_flag (load : string) (b : bool) :
  state_load load (UrlFlag b)
  = if os_path_exists load || Py.startswith_any load remote_protocols
    then json_load_file load
    else Raise TypeError.
Proof.
  unfold state_load.
  destruct (os_path_exists load || Py.startswith_any load remote_protocols);
    [reflexivity|].
  destruct b; reflexivity.
Qed.

(** C8 (defect in the code).  [state(load=..., url=True)] on a
    non-empty [load] that is neither an existing path nor a remote
    protocol raises [TypeError] and installs nothing, whatever the fragment
    of [load] is; in the other case the document comes from the file
    [load], not from its fragment. *)
Theorem state_url_flag_never_decodes (c : ascii) (rest : string)
    (save : option string) (print_ : bool) (self : Session F) :
  let load := String c rest in
  (os_path_exists load || Py.startswith_any load remote_protocols = false ->
   state (Some load) save (UrlFlag true) print_ self = (self, Raise TypeError))
  /\ (os_path_exists load || Py.startswith_any load remote_protocols = true ->
      state_load load (UrlFlag true) = json_load_file load).
Proof.
  cbv zeta. split; intros Hcond.
  - unfold state. cbn [str_truth String.eqb negb from_option].
    cbv beta iota zeta delta [mbind Cmd_bind lift id].
    rewrite state_load_flag, Hcond. reflexivity.
  - rewrite state_load_flag, Hcond. reflexivity.
Qed.

(** The walk of [layout] never looks at the node it starts from once the
    path is not empty: every step indexes the children of the new
    layout. *)
Lemma walk_ignores_root (new : LayoutVal) (root root' : ng.Layout F)
    (i : Z) (path : list Z) :
  walk new root (i :: path) = walk new root' (i :: path).
Proof. reflexivity. Qed.

(** With a non-empty path, a new layout that is not a stack makes the walk
    raise [AttributeError] whatever the existing tree is. *)
Lemma walk_new_leaf (new : LayoutVal) (root : ng.Layout F)
    (i : Z) (path : list Z) :
  lv_children new = Raise AttributeError ->
  walk new root (i :: path) = Raise AttributeError.
Proof. intros H. cbn [walk]. rewrite H. reflexivity. Qed.

(** Appending one panel at a non-empty path fails on every session,
    whatever the existing layout tree is, and commits nothing. *)
Lemma layout_append_leaf_fails (kind : string) (flex : F) (i : Z)
    (path : list Z) (self : Session F) :
  layout (ArgList [kind]) None ArgNone flex (IntList (i :: path)) IntNone
    IntNone self
  = (self, Raise AttributeError).
Proof.
  unfold layout. cbn [ensure_list length Nat.eqb andb].
  cbv beta iota zeta delta [mbind Cmd_bind mret Cmd_ret lift].
  cbn [Nat.ltb Nat.leb str_truth orb andb is_IntNone negb ensure_ints
       int_truth build_layout map length opt_int_truth Nat.b2n Nat.add].
  rewrite andb_false_r. unfold txn, layout_txn.
  cbn [orb walk lv_children ng.children_of mbind Res_bind]. reflexivity.
Qed.

End Commands.

(** ** The statements at the sample collaborators *)

Import LocalNeuroglancer.

(** C1 (counterexample to the spec's example).  A flat sequence of length 20 is not
    refused: 20 = 4 * 5, the reshape gives 4 rows of 5 entries and the
    preparation of the matrix succeeds. *)
Lemma length_20_is_reshaped :
  reshape_flat (np.Ndarray [20] (replicate 20 0%Q))
  = Ok (np.Ndarray [4; 5] (replicate 20 0%Q))
  /\ prepare_matrix (E:=Sample.externals) (Sample.zeros 20) false None None
     = Ok (np.Ndarray [4; 5] (replicate 20 0%Q))
  /\ ~ (exists e, prepare_matrix (E:=Sample.externals) (Sample.zeros 20)
                    false None None = Raise e).
Proof.
  split; [vm_compute; reflexivity|].
  split; [vm_compute; reflexivity|].
  intros [e He]. vm_compute in He. discriminate He.
Qed.

Lemma reshape_flat_shapes_witness :
  reshape_flat (np.Ndarray [6] (replicate 6 1%Q))
  = Ok (np.Ndarray [2; 3] (replicate 6 1%Q))
  /\ prepare_matrix (E:=Sample.externals)
       (np.PyList (map np.PyNum (replicate 7 1%Q))) true None None
     = Raise ValueError.
Proof.
  split.
  - apply (reshape_flat_shapes (E:=Sample.externals) (replicate 6 1%Q)).
    reflexivity.
  - apply (reshape_flat_shapes (E:=Sample.externals) (replicate 7 1%Q)).
    + simpl; lia.
    + intros n. destruct n as [|[|[|n]]]; simpl; lia.
    + simpl; lia.
Defined.

(** C2 (counterexample to the spec's example).  [display(['z','y','x'])] on the
    volume of native dimensions [x, y, z] succeeds and commits
    [displayDimensions = ['z','y','x']], but sets no transform on the
    source. *)
Lemma display_zyx_sets_no_transform :
  let r := display (E:=Sample.externals) (ArgList ["z"; "y"; "x"])
             Sample.session in
  snd r = Ok tt
  /\ map ng.transform (image_sources (viewer (fst r))) = [None]
  /\ ng.displayDimensions (viewer (fst r)) = Some ["z"; "y"; "x"]
  /\ ~ (exists t, map ng.transform (image_sources (viewer (fst r))) = [Some t]).
Proof.
  vm_compute. repeat split. intros [t Ht]. discriminate Ht.
Qed.

Lemma sample_volume_native : native_xyz (E:=Sample.externals) Sample.volume.
Proof.
  constructor; [reflexivity|reflexivity|].
  exists (Sample.space_of "xyz"). split; [reflexivity|]. right.
  split; [reflexivity|]. split; [reflexivity|].
  eexists. split; reflexivity.
Defined.

Lemma display_zyx_keeps_native_sources_witness :
  sources_fixed (native_xyz (E:=Sample.externals))
    (viewer Sample.mixed_session)
    (viewer (fst (display (E:=Sample.externals) (ArgList ["z"; "y"; "x"])
                    Sample.mixed_session)))
  /\ display (E:=Sample.externals) (ArgList ["z"; "y"; "x"]) Sample.session
     = (redisplayed Sample.session (Some ["z"; "y"; "x"]), Ok tt).
Proof.
  split.
  - destruct (display_zyx_keeps_native_sources (E:=Sample.externals)
                Sample.mixed_session) as (_ & H & _);
      [vm_compute; reflexivity|vm_compute; reflexivity
      |vm_compute; reflexivity|].
    exact H.
  - destruct (display_zyx_keeps_native_sources (E:=Sample.externals)
                Sample.session) as (_ & _ & _ & H);
      [vm_compute; reflexivity|vm_compute; reflexivity
      |vm_compute; reflexivity|].
    apply H. repeat constructor. apply sample_volume_native.
Defined.

(** C3 (defect in the code).  The existing root is a row whose child
    0 is a column, so the path [0] resolves, in the spec's sense, to that
    column.  [layout(['yz'], append=[0])] nevertheless raises
    [AttributeError] and commits nothing: its walk indexes the children of
    the new layout ["yz"], not those of the root.  On a root that is a single
    panel the same call fails in the same way, for the same reason. *)
Theorem layout_append_walks_new_layout :
  layout (E:=Sample.externals) (ArgList ["yz"]) None ArgNone 1%Q
    (IntList [0%Z]) IntNone IntNone Sample.nested_session
  = (Sample.nested_session, Raise AttributeError)
  /\ spec_resolve Sample.nested [0%Z]
     = Ok (ng.StackLayout "column"
             [ng.LayerGroupViewer ["brain"] (ng.DataPanelLayout "xy") 1%Q])
  /\ layout (E:=Sample.externals) (ArgList ["yz"]) None ArgNone 1%Q
       (IntList [0%Z]) IntNone IntNone Sample.session
     = (Sample.session, Raise AttributeError).
Proof. vm_compute. repeat split. Qed.

(** C4 (defect in the code).  [transform] of a singular matrix with
    [inv] set raises [LinAlgError], but only after [display('ras')] has
    committed twice: the source has been reoriented, and both the stored order
    and [displayDimensions] are left at right/anterior/superior instead of
    the [x, y, z] of before. *)
Theorem transform_singular_leaves_ras :
  let before := Sample.session in
  let r := transform (E:=Sample.externals) (Sample.zeros 16) ArgNone true
             None None before in
  snd r = Raise LinAlgError
  /\ ng.displayDimensions (viewer before) = Some ["x"; "y"; "z"]
  /\ ng.displayDimensions (viewer (fst r))
     = Some ["right"; "anterior"; "superior"]
  /\ display_dimensions (fst r) = Some ["right"; "anterior"; "superior"]
  /\ map ng.transform (image_sources (viewer before)) = [None]
  /\ map ng.transform (image_sources (viewer (fst r)))
     = [Some (Sample.reorientation "xyz" "ras")]
  /\ length (commits (fst r)) = 2 + length (commits before).
Proof. vm_compute. repeat split. Qed.

(** C5 (counterexample to the single transaction).  [display('ras')] on the sample session
    commits two states: in the first the source is reoriented and
    [displayDimensions] is still the old [x, y, z]; only the second holds the
    new order. *)
Lemma display_ras_intermediate_commit :
  match commits (fst (display (E:=Sample.externals) (ArgStr "ras")
                        Sample.session)) with
  | [st1; st2] =>
      map ng.transform (image_sources st1)
      = [Some (Sample.reorientation "xyz" "ras")]
      /\ map ng.transform (image_sources (viewer Sample.session)) = [None]
      /\ ng.displayDimensions st1 = ng.displayDimensions (viewer Sample.session)
      /\ ng.displayDimensions st2 = Some ["right"; "anterior"; "superior"]
  | _ => False
  end.
Proof. vm_compute. repeat split. Qed.

Lemma display_commits_twice_witness :
  exists st1,
    commits (fst (display (E:=Sample.externals) (ArgStr "ras") Sample.session))
    = [st1; viewer (fst (display (E:=Sample.externals) (ArgStr "ras")
                          Sample.session))]
    /\ ng.displayDimensions st1 = Some ["x"; "y"; "z"].
Proof.
  destruct (display_commits_twice (E:=Sample.externals) (ArgStr "ras")
              Sample.session
              (fst (display (E:=Sample.externals) (ArgStr "ras") Sample.session)))
    as (st1 & Hlog & Hdims & _).
  - vm_compute; reflexivity.
  - exists st1. split; [exact Hlog|exact Hdims].
Defined.

Lemma display_requires_three_names_witness :
  display (E:=Sample.externals) (ArgStr "xy") Sample.session
  = (Sample.session, Raise ValueError).
Proof.
  apply (display_requires_three_names (E:=Sample.externals) (ArgStr "xy")
           Sample.session).
  - discriminate.
  - simpl; lia.
Defined.

Lemma sample_outputs_only_unknown :
  unknown_dimensions (E:=Sample.strict) Sample.outputs_only.
Proof.
  constructor; [reflexivity|reflexivity|].
  right. eexists. split; [reflexivity|]. split; reflexivity.
Defined.

Lemma display_composes_on_unknown_dimensions_witness :
  exists e',
    display (E:=Sample.strict) (ArgStr "ras") Sample.unresolved_session
    = (MkSession (viewer Sample.unresolved_session)
         (Some ["right"; "anterior"; "superior"]) [] [], Raise e').
Proof.
  destruct (display_composes_on_unknown_dimensions (E:=Sample.strict)
              (ArgStr "ras") Sample.unresolved_session
              ["right"; "anterior"; "superior"] "ras" Sample.outputs_only
              (ng.MkTransform None None (Some (Sample.space_of "xyz")))
              (Sample.space_of "xyz") "xyz"
              (Sample.reorientation "xyz" "ras")) as (_ & _ & H).
  - reflexivity.
  - reflexivity.
  - left. reflexivity.
  - apply sample_outputs_only_unknown.
  - reflexivity.
  - reflexivity.
  - reflexivity.
  - reflexivity.
  - vm_compute; reflexivity.
  - apply (H AttributeError). reflexivity.
Defined.

Lemma state_url_flag_never_decodes_witness :
  state (E:=Sample.externals) (Some "gs://bucket/state#!%7B%7D") None
    (UrlFlag true) true Sample.session
  = (Sample.session, Raise TypeError).
Proof.
  apply (state_url_flag_never_decodes (E:=Sample.externals) "g"
           "s://bucket/state#!%7B%7D" None true Sample.session).
  reflexivity.
Defined.

Lemma unload_all_witness :
  ng.layers (viewer (fst (unload (E:=Sample.externals) ArgNone Sample.session)))
  = [].
Proof.
  apply (unload_all (E:=Sample.externals) ArgNone Sample.session).
  reflexivity.
Defined.

Lemma load_one_name_many_files_witness :
  load (E:=Sample.externals) (ArgList ["a.nii.gz"; "b.nii.gz"]) (Some "brain")
    None Sample.session
  = (Sample.session, Raise ValueError).
Proof.
  apply (load_one_name_many_files (E:=Sample.externals)).
  - reflexivity.
  - simpl; lia.
Defined.

(** * Further properties of the code *)

(** ** File names (lines 847-946) *)

Lemma append_cons (a : ascii) (p s : string) :
  String a p +:+ s = String a (p +:+ s).
Proof. reflexivity. Qed.

Lemma append_assoc (p q r : string) : (p +:+ q) +:+ r = p +:+ (q +:+ r).
Proof.
  induction p as [|a p IH]; [reflexivity|].
  rewrite !append_cons. f_equal. exact IH.
Qed.

Lemma prefix_slice (p s : string) :
  String.prefix p s = true ->
  s = p +:+ Py.slice_from (String.length p) s.
Proof.
  revert s. induction p as [|a p IH]; intros s; [reflexivity|].
  destruct s as [|b s]; [discriminate|]. cbn [String.prefix].
  destruct (Ascii.ascii_dec a b) as [->|_]; [|discriminate].
  intros H. rewrite append_cons. cbn [String.length Py.slice_from].
  f_equal. apply IH, H.
Qed.

Lemma prefix_append (p s : string) : String.prefix p (p +:+ s) = true.
Proof.
  induction p as [|a p IH]; [destruct s; reflexivity|].
  rewrite append_cons. cbn [String.prefix].
  destruct (Ascii.ascii_dec a a); [exact IH|congruence].
Qed.

Lemma length_protocol (p : string) :
  String.length (p +:+ "://") = String.length p + 3.
Proof.
  induction p as [|a p IH]; [reflexivity|].
  rewrite append_cons. cbn [String.length]. lia.
Qed.

(** The loop that strips a protocol finds one of the listed protocols and
    returns what follows its ["://"], or finds none and returns the name as
    it is. *)
Lemma strip_protocol_spec (protocols : list string) (filename : string) :
  match strip_protocol protocols filename with
  | (Some p, rest) => In p protocols /\ filename = p +:+ "://" +:+ rest
  | (None, rest) =>
      rest = filename
      /\ Forall (fun p => Py.startswith filename (p +:+ "://") = false) protocols
  end.
Proof.
  induction protocols as [|p ps IH]; cbn [strip_protocol]; [split; constructor|].
  destruct (Py.startswith filename (p +:+ "://")) eqn:Hp.
  - split; [left; reflexivity|].
    rewrite <- length_protocol.
    rewrite <- append_assoc. apply prefix_slice. exact Hp.
  - destruct (strip_protocol ps filename) as [[q|] rest].
    + destruct IH as [Hin Heq]. split; [right; exact Hin|exact Heq].
    + destruct IH as [Heq Hall]. split; [exact Heq|constructor; assumption].
Qed.

Lemma guess_format_known (filename : string) (f : string) :
  guess_format filename = Some f ->
  format_in (Some f) NG_FORMATS || format_in (Some f) EXTRA_FORMATS = true.
Proof.
  unfold guess_format.
  repeat match goal with
         | |- context [if ?b then _ else _] => destruct b
         end;
    intros [= <-]; reflexivity.
Qed.

Lemma format_in_app (f : string) (xs ys : list string) :
  In f (xs ++ ys) ->
  existsb (String.eqb f) xs || existsb (String.eqb f) ys = true.
Proof.
  intros Hin. apply in_app_or in Hin. apply orb_true_iff.
  destruct Hin as [H|H]; [left|right]; apply existsb_exists; exists f;
    (split; [exact H|apply String.eqb_refl]).
Qed.

(** X1.  Whatever the file name, the layer type [parse_filename] returns is
    one of [LAYERTYPES] and the format it returns, be it read from a protocol
    or guessed from the extension, is one of [NG_FORMATS] or
    [EXTRA_FORMATS]: [load] refuses a file as of unrecognized format only
    when no format was found at all. *)
Theorem parse_filename_known (filename : string) :
  match parse_filename filename with
  | (datatype, format, _) =>
      match datatype with
      | Some dt => In dt LAYERTYPES
      | None => True
      end
      /\ match format with
         | Some f => format_in format NG_FORMATS || format_in format EXTRA_FORMATS
                     = true
         | None => format_in format NG_FORMATS = false
                   /\ format_in format EXTRA_FORMATS = false
         end
  end.
Proof.
  unfold parse_filename.
  pose proof (strip_protocol_spec LAYERTYPES filename) as Hdt.
  destruct (strip_protocol LAYERTYPES filename) as [datatype name1].
  pose proof (strip_protocol_spec (NG_FORMATS ++ EXTRA_FORMATS) name1) as Hfmt.
  destruct (strip_protocol (NG_FORMATS ++ EXTRA_FORMATS) name1) as [format name2].
  split.
  - destruct datatype; [apply Hdt|exact I].
  - destruct format as [f|].
    + apply format_in_app, Hfmt.
    + destruct (guess_format name2) as [f|] eqn:Hg.
      * apply (guess_format_known _ _ Hg).
      * split; reflexivity.
Qed.

(** X2.  [parse_filename] only removes protocols from the front: the name
    it was given is the layer-type protocol (if one was found), then the
    format protocol (if one was found in front), then the name it returns.
    A name that starts with no listed protocol comes back as it is, with the
    format guessed from its extension. *)
Theorem parse_filename_decomposes (filename : string) :
  match parse_filename filename with
  | (datatype, format, rest) =>
      let dt := match datatype with Some d => d +:+ "://" | None => "" end in
      (exists fmt, (fmt = "" \/ exists f, format = Some f /\ fmt = f +:+ "://")
                   /\ filename = dt +:+ fmt +:+ rest)
      /\ (Forall (fun p => Py.startswith filename (p +:+ "://") = false)
                 (LAYERTYPES ++ NG_FORMATS ++ EXTRA_FORMATS) ->
          datatype = None /\ rest = filename
          /\ format = guess_format filename)
  end.
Proof.
  unfold parse_filename.
  pose proof (strip_protocol_spec LAYERTYPES filename) as Hdt.
  destruct (strip_protocol LAYERTYPES filename) as [datatype name1].
  pose proof (strip_protocol_spec (NG_FORMATS ++ EXTRA_FORMATS) name1) as Hfmt.
  destruct (strip_protocol (NG_FORMATS ++ EXTRA_FORMATS) name1) as [format name2].
  cbv zeta. split.
  - assert (Hname1 : filename
                     = match datatype with Some d => d +:+ "://" | None => "" end
                       +:+ name1).
    { destruct datatype as [d|]; [|destruct Hdt as [-> _]; reflexivity].
      destruct Hdt as [_ ->]. rewrite append_assoc. reflexivity. }
    destruct format as [f|].
    + exists (f +:+ "://"). split; [right; exists f; split; reflexivity|].
      destruct Hfmt as [_ Hfmt]. rewrite Hname1 at 1. rewrite Hfmt at 1.
      rewrite !append_assoc. reflexivity.
    + exists "". split; [left; reflexivity|].
      destruct Hfmt as [-> _]. rewrite Hname1 at 1. reflexivity.
  - intros Hnone. apply Forall_app in Hnone as [Hlt Hfm].
    destruct datatype as [d|].
    { exfalso. destruct Hdt as [Hin Heq].
      rewrite List.Forall_forall in Hlt. specialize (Hlt d Hin).
      rewrite Heq in Hlt. unfold Py.startswith in Hlt.
      rewrite <- append_assoc, prefix_append in Hlt. discriminate. }
    destruct Hdt as [-> _]. destruct format as [f|].
    { exfalso. destruct Hfmt as [Hin Heq].
      rewrite List.Forall_forall in Hfm. specialize (Hfm f Hin).
      rewrite Heq in Hfm. unfold Py.startswith in Hfm.
      rewrite <- append_assoc, prefix_append in Hfm. discriminate. }
    destruct Hfmt as [-> _]. repeat split.
Qed.

Section Urls.
Context {F : Type} {E : Externals F}.


End Urls.

(** ** Compact names (lines 310-313) *)

Lemma lower_ascii_idempotent (c : ascii) :
  Py.lower_ascii (Py.lower_ascii c) = Py.lower_ascii c.
Proof.
  destruct c as [[] [] [] [] [] [] [] []]; reflexivity.
Qed.

Lemma first_letter_lower (name : string) :
  first_letter (Py.lower name) = first_letter name.
Proof.
  destruct name as [|c name]; [reflexivity|].
  cbn [Py.lower first_letter]. rewrite lower_ascii_idempotent. reflexivity.
Qed.

Lemma mapRes_ext {A B} (f g : A -> Res B) (xs : list A) :
  (forall x, f x = g x) -> mapRes f xs = mapRes g xs.
Proof.
  intros H. induction xs as [|x xs IH]; [reflexivity|].
  cbn [mapRes]. rewrite H, IH. reflexivity.
Qed.

Lemma mapRes_map {A B C} (f : B -> Res C) (g : A -> B) (xs : list A) :
  mapRes f (map g xs) = mapRes (fun x => f (g x)) xs.
Proof.
  induction xs as [|x xs IH]; [reflexivity|].
  cbn [map mapRes]. rewrite IH. reflexivity.
Qed.

Lemma first_letters (names letters : list string) :
  mapRes first_letter names = Ok letters ->
  length letters = length names
  /\ Forall (fun d => exists c, d = String (Py.lower_ascii c) "") letters.
Proof.
  revert letters. induction names as [|n names IH]; intros letters.
  - intros [= <-]. split; [reflexivity|constructor].
  - cbn [mapRes]. destruct n as [|c n]; [discriminate|]. cbn [first_letter mbind Res_bind].
    destruct (mapRes first_letter names) as [ls|e]; [|discriminate].
    intros [= <-]. destruct (IH ls eq_refl) as [Hlen Hall].
    split; [cbn [length]; lia|]. constructor; [eauto|exact Hall].
Qed.

Lemma first_letters_empty (names : list string) :
  In "" names -> exists e, mapRes first_letter names = Raise e.
Proof.
  induction names as [|n names IH]; [intros []|].
  intros [->|Hin]; [eexists; reflexivity|].
  cbn [mapRes]. destruct (first_letter n); [|eexists; reflexivity].
  destruct (IH Hin) as [e ->]. eexists; reflexivity.
Qed.

Lemma first_letters_total (names : list string) :
  ~ In "" names -> exists letters, mapRes first_letter names = Ok letters.
Proof.
  induction names as [|n names IH]; intros Hne; [eexists; reflexivity|].
  cbn [mapRes]. destruct n as [|c n]; [exfalso; apply Hne; left; reflexivity|].
  destruct IH as [ls ->]; [intros H; apply Hne; right; exact H|].
  eexists; reflexivity.
Qed.

Lemma join_letters (letters : list string) (x : ascii) :
  Forall (fun d => exists c, d = String c "" /\ c <> x) letters ->
  Py.contains (Py.join letters) (String x "") = false
  /\ String.length (Py.join letters) = length letters.
Proof.
  induction 1 as [|d ds (c & -> & Hc) _ [IHc IHl]]; [split; reflexivity|].
  unfold Py.join in *. cbn [fold_right]. rewrite append_cons.
  change ("" +:+ ?s) with s. split.
  - cbn [Py.contains String.prefix]. rewrite IHc.
    destruct (Ascii.ascii_dec x c) as [->|_]; [contradiction|reflexivity].
  - cbn [String.length length]. rewrite IHl. reflexivity.
Qed.

(** The letters [compactNames] reads are the first characters of the
    names, lower-cased. *)
Lemma first_letters_heads (names letters : list string) :
  mapRes first_letter names = Ok letters ->
  exists heads,
    Forall2 (fun name a => exists rest, name = String a rest) names heads
    /\ letters = map (fun a => String a "") (map Py.lower_ascii heads).
Proof.
  revert letters. induction names as [|n names IH]; intros letters.
  - intros [= <-]. exists []. split; [constructor|reflexivity].
  - cbn [mapRes]. destruct n as [|c n]; [discriminate|].
    cbn [first_letter mbind Res_bind].
    destruct (mapRes first_letter names) as [ls|e]; [|discriminate].
    intros [= <-]. destruct (IH ls eq_refl) as (heads & Hheads & ->).
    exists (c :: heads). split; [constructor; eauto|reflexivity].
Qed.

(** [d in 'ct'] for a one-character string. *)
Lemma contains_ct (a : ascii) :
  Py.contains "ct" (String a "") = Ascii.eqb a "c" || Ascii.eqb a "t".
Proof.
  cbn [Py.contains String.prefix].
  destruct (ascii_dec a "c"); destruct (ascii_dec a "t");
    destruct (Ascii.eqb_spec a "c"); destruct (Ascii.eqb_spec a "t");
    try congruence; reflexivity.
Qed.

Lemma join_kept_letters (l : list ascii) :
  Py.join (List.filter (fun d => negb (Py.contains "ct" d))
             (map (fun a => String a "") l))
  = string_of_list_ascii
      (List.filter (fun a => negb (Ascii.eqb a "c") && negb (Ascii.eqb a "t"))
         l).
Proof.
  induction l as [|a l IH]; [reflexivity|].
  cbn [map List.filter]. rewrite contains_ct, negb_orb.
  destruct (negb (Ascii.eqb a "c") && negb (Ascii.eqb a "t")); [|exact IH].
  unfold Py.join in *. cbn [fold_right string_of_list_ascii].
  rewrite append_cons, IH. reflexivity.
Qed.

(** X4.  [compactNames] yields, in the order of the names, the lower-cased
    first letter of every name except those that start with [c] or [t] (in
    either case), which it drops.  So the result contains neither letter and
    is no longer than the list of names; it does not depend on the case of
    the names, and it raises exactly when one of the names is the empty
    string. *)
Theorem compactNames_letters (names : list string) :
  (~ In "" names ->
   exists compact heads,
     compactNames names = Ok compact
     /\ Forall2 (fun name a => exists rest, name = String a rest) names heads
     /\ compact
        = string_of_list_ascii
            (List.filter
               (fun a => negb (Ascii.eqb a "c") && negb (Ascii.eqb a "t"))
               (map Py.lower_ascii heads))
     /\ Py.contains compact "c" = false
     /\ Py.contains compact "t" = false
     /\ String.length compact <= length names
     /\ compactNames (map Py.lower names) = Ok compact)
  /\ (In "" names -> exists e, compactNames names = Raise e).
Proof.
  split.
  - intros Hne. unfold compactNames.
    rewrite mapRes_map, (mapRes_ext _ _ _ first_letter_lower).
    destruct (first_letters_total names Hne) as [letters Hl]. rewrite Hl.
    cbn [mbind Res_bind].
    destruct (first_letters_heads _ _ Hl) as (heads & Hheads & Hletters).
    eexists _, heads. split; [reflexivity|]. split; [exact Hheads|].
    split; [rewrite Hletters; apply join_kept_letters|].
    {
      destruct (first_letters _ _ Hl) as [Hlen Hall].
      set (kept := List.filter _ letters).
      assert (Hkept : forall x, x = "c"%char \/ x = "t"%char ->
                Forall (fun d => exists c, d = String c "" /\ c <> x) kept).
      { intros x Hx. apply List.Forall_forall. intros d Hd.
        apply filter_In in Hd as [Hd Hk].
        rewrite List.Forall_forall in Hall. destruct (Hall d Hd) as [c ->].
        eexists. split; [reflexivity|]. intros Heq. rewrite Heq in Hk.
        destruct Hx as [->| ->]; discriminate Hk. }
      destruct (join_letters kept "c" (Hkept _ (or_introl eq_refl))) as [Hc Hlenk].
      destruct (join_letters kept "t" (Hkept _ (or_intror eq_refl))) as [Ht _].
      repeat split; [exact Hc|exact Ht|].
      rewrite Hlenk, <- Hlen. subst kept. clear.
      induction letters as [|d ds IH]; cbn [List.filter length]; [lia|].
      destruct (negb _); cbn [length]; lia.
    }
  - intros Hin. unfold compactNames.
    destruct (first_letters_empty names Hin) as [e ->]. eexists; reflexivity.
Qed.

(** ** Resolving the dimensions of a source (lines 317-327, 565-575) *)

Section Resolved.
Context {F : Type} {E : Externals F}.
Import LocalNeuroglancer.

(** X26.  For every source the resolution of its dimensions returns once
    it has two units of fuel, after at most one lookup into the description
    provider, none of them from the reentrant call.  When neither a
    transform's [inputDimensions], nor the source's own [dimensions], nor
    the description yields dimensions, the result is [None] and nothing is
    raised.  If, in addition, the source has no effective transform, the
    loops of [display] and [transform] leave that source as it is and go
    on. *)
Theorem getDimensions_bounded_unknown (source : ng.Source F) :
  (forall fuel _reentrant,
     2 <= fuel ->
     exists urls r,
       getDimensions_rec fuel source _reentrant = Some (urls, r)
       /\ length urls <= 1
       /\ (_reentrant = true -> urls = []))
  /\ (unknown_dimensions source ->
      getDimensions source = Ok None
      /\ (getTransform source = Ok None ->
          forall names T,
            display_source names source = Ok source
            /\ transform_source T source = Ok source)).
Proof.
  split; [intros fuel re; apply getDimensions_rec_bounded|].
  intros Hunk. pose proof (getDimensions_unknown source Hunk) as Hdims.
  split; [exact Hdims|]. intros Hgt names T.
  unfold display_source, transform_source, reorientUsingDimensions,
    applyTransform.
  rewrite Hgt. cbn [mbind Res_bind].
  replace (bool_decide (is_Some (@None (ng.CoordinateSpaceTransform F))))
    with false by (symmetry; apply bool_decide_eq_false; intros [? [=]]).
  rewrite Hdims. split; reflexivity.
Qed.

End Resolved.

(** ** What [display] and [transform] keep *)

Section Kept.
Context {F : Type} {E : Externals F}.

Lemma source_kept_refl (s : ng.Source F) : source_kept s s.
Proof. repeat split. Qed.

Lemma source_kept_set (s : ng.Source F) (t : ng.CoordinateSpaceTransform F) :
  source_kept s (ng.set_transform s t).
Proof. repeat split. Qed.

Lemma layer_kept_refl (l : ng.ManagedLayer F) : layer_kept l l.
Proof.
  repeat split. induction (ng.source (ng.layer l)); constructor;
    [apply source_kept_refl|assumption].
Qed.

Lemma source_kept_trans (a b c : ng.Source F) :
  source_kept a b -> source_kept b c -> source_kept a c.
Proof.
  intros (H1 & H2 & H3 & H4) (G1 & G2 & G3 & G4).
  repeat split; congruence.
Qed.

Lemma sources_kept_trans (xs ys zs : list (ng.Source F)) :
  Forall2 source_kept xs ys -> Forall2 source_kept ys zs ->
  Forall2 source_kept xs zs.
Proof.
  intros H. revert zs. induction H as [|x y xs ys Hxy _ IH]; intros zs Hz;
    inversion Hz; subst; constructor;
    [eapply source_kept_trans; eassumption|apply IH; assumption].
Qed.

Lemma layer_kept_trans (a b c : ng.ManagedLayer F) :
  layer_kept a b -> layer_kept b c -> layer_kept a c.
Proof.
  intros (H1 & H2 & H3 & H4 & H5 & H6) (G1 & G2 & G3 & G4 & G5 & G6).
  repeat split; try congruence.
  - eapply sources_kept_trans; eassumption.
  - intros Ha. rewrite <- (H6 Ha). apply G6. rewrite (H6 Ha). exact Ha.
Qed.

Lemma state_kept_refl (st : ng.ViewerState F) : state_kept st st.
Proof.
  split; [|reflexivity].
  induction (ng.layers st); constructor; [apply layer_kept_refl|assumption].
Qed.

Lemma state_kept_trans (a b c : ng.ViewerState F) :
  state_kept a b -> state_kept b c -> state_kept a c.
Proof.
  intros [Hab Lab] [Hbc Lbc]. split; [|congruence].
  revert Hbc. generalize (ng.layers c). induction Hab as [|x y xs ys Hxy _ IH];
    intros zs Hz; inversion Hz; subst; constructor;
    [eapply layer_kept_trans; eassumption|apply IH; assumption].
Qed.

(** Each of the four helpers returns the source itself or the source with
    a new transform. *)
Ltac invert_result H :=
  cbv zeta in H;
  repeat first
    [ apply bind_Ok in H as (? & _ & H)
    | match type of H with
      | (if ?b then _ else _) = _ => destruct b
      | (match ?x with _ => _ end) = _ => destruct x
      end ];
  try discriminate H.

Lemma reorientUsingTransform_kept (names : string) (s : ng.Source F)
    (r : ng.Source F * bool) :
  reorientUsingTransform names s = Ok r -> source_kept s (fst r).
Proof.
  unfold reorientUsingTransform. intros H. invert_result H;
    injection H as <-; first [apply source_kept_refl|apply source_kept_set].
Qed.

Lemma reorientUsingDimensions_kept (names : string) (s : ng.Source F)
    (r : ng.Source F * bool) :
  reorientUsingDimensions names s = Ok r -> source_kept s (fst r).
Proof.
  unfold reorientUsingDimensions. intros H. invert_result H;
    injection H as <-; first [apply source_kept_refl|apply source_kept_set].
Qed.

Lemma composeTransform_kept (T : ng.CoordinateSpaceTransform F)
    (s : ng.Source F) (r : ng.Source F * bool) :
  composeTransform T s = Ok r -> source_kept s (fst r).
Proof.
  unfold composeTransform. intros H. invert_result H;
    injection H as <-; first [apply source_kept_refl|apply source_kept_set].
Qed.

Lemma applyTransform_kept (T : ng.CoordinateSpaceTransform F)
    (s : ng.Source F) (r : ng.Source F * bool) :
  applyTransform T s = Ok r -> source_kept s (fst r).
Proof.
  unfold applyTransform. intros H. invert_result H;
    injection H as <-; first [apply source_kept_refl|apply source_kept_set].
Qed.

Lemma display_source_kept (names : string) (s s' : ng.Source F) :
  display_source names s = Ok s' -> source_kept s s'.
Proof.
  unfold display_source. intros H.
  apply bind_Ok in H as (t & _ & H). apply bind_Ok in H as (r & Hr & [= <-]).
  destruct (bool_decide (is_Some t));
    [apply (reorientUsingTransform_kept _ _ _ Hr)
    |apply (reorientUsingDimensions_kept _ _ _ Hr)].
Qed.

Lemma transform_source_kept (T : ng.CoordinateSpaceTransform F)
    (s s' : ng.Source F) :
  transform_source T s = Ok s' -> source_kept s s'.
Proof.
  unfold transform_source. intros H.
  apply bind_Ok in H as (t & _ & H). apply bind_Ok in H as (r & Hr & [= <-]).
  destruct (bool_decide (is_Some t));
    [apply (composeTransform_kept _ _ _ Hr)
    |apply (applyTransform_kept _ _ _ Hr)].
Qed.

Lemma on_image_sources_kept (body : ng.Source F -> Res (ng.Source F))
    (l l' : ng.ManagedLayer F) :
  (forall s s', body s = Ok s' -> source_kept s s') ->
  on_image_sources body l = Ok l' -> layer_kept l l'.
Proof.
  intros Hbody. unfold on_image_sources.
  destruct (ng.is_ImageLayer (ng.layer l)) eqn:Himg.
  - intros H. apply bind_Ok in H as (ss & Hss & [= <-]).
    repeat split; [|congruence].
    cbn. apply mapRes_Forall2 in Hss.
    eapply Forall2_impl; [exact Hss|]. intros s s' Hs. apply (Hbody _ _ Hs).
  - intros [= <-]. apply layer_kept_refl.
Qed.

Lemma layers_kept (body : ng.ManagedLayer F -> Res (ng.ManagedLayer F))
    (ls ls' : list (ng.ManagedLayer F)) :
  (forall l l', body l = Ok l' -> layer_kept l l') ->
  mapRes body ls = Ok ls' -> Forall2 layer_kept ls ls'.
Proof.
  intros Hbody H. apply mapRes_Forall2 in H.
  eapply Forall2_impl; [exact H|]. intros l l' Hl. apply (Hbody _ _ Hl).
Qed.

(** What a successful [display] keeps. *)
Lemma display_success_kept (dimension : StrArg) (self self' : Session F) :
  display dimension self = (self', Ok tt) ->
  state_kept (viewer self) (viewer self')
  /\ ng.displayDimensions (viewer self') = display_dimensions self'
  /\ stdout self' = stdout self.
Proof.
  rewrite display_unfold.
  destruct (requested_order _ _) as [order|e]; [|intros [= ]].
  cbv zeta.
  destruct (match order with Some d => compactNames d | None => _ end)
    as [names|e]; [|intros [= ]].
  destruct (mapRes _ _) as [ls|e] eqn:Hls; [|intros [= ]].
  intros [= <-]. cbn. repeat split.
  eapply layers_kept; [|exact Hls].
  intros l l'. apply on_image_sources_kept. apply display_source_kept.
Qed.

(** X5.  A call to [display] that succeeds keeps the layout and, layer by
    layer and source by source, everything but the transforms of the sources
    of image layers: no layer is added, dropped, renamed or reordered, no
    source changes its URL or its native dimensions, and a layer that is not
    an image layer is untouched.  Afterwards the committed
    [displayDimensions] is the stored order. *)
Theorem display_keeps (dimension : StrArg) (self self' : Session F) :
  display dimension self = (self', Ok tt) ->
  state_kept (viewer self) (viewer self')
  /\ ng.displayDimensions (viewer self') = display_dimensions self'
  /\ stdout self' = stdout self.
Proof. apply display_success_kept. Qed.

(** X6.  A call to [display] that raises commits nothing: the viewer state
    and the commit log are those of before.  The stored order is not
    protected in the same way: when the argument passed validation, the
    stored order is already the new one although [displayDimensions] still
    holds the old. *)
Theorem display_failure (dimension : StrArg) (self self' : Session F)
    (e : PyError) :
  display dimension self = (self', Raise e) ->
  viewer self' = viewer self
  /\ commits self' = commits self
  /\ match requested_order dimension (display_dimensions self) with
     | Ok order => display_dimensions self' = order
     | Raise e' => e' = e /\ self' = self
     end.
Proof.
  rewrite display_unfold.
  destruct (requested_order _ _) as [order|e0];
    [|intros [= <- <-]; repeat split].
  cbv zeta.
  destruct (match order with Some d => compactNames d | None => _ end)
    as [names|e1]; [|intros [= <- <-]; repeat split].
  destruct (mapRes _ _) as [ls|e2]; [intros [= ]|intros [= <- <-]; repeat split].
Qed.

(** X7.  A call to [transform] that succeeds keeps what [display] keeps:
    the layout, the layers with their names and order, and of every source
    everything but its transform. *)
Theorem transform_keeps (t : np.PyVal F) (layer : StrArg) (inv : bool)
    (mov fix_ : option string) (self self' : Session F) :
  transform t layer inv mov fix_ self = (self', Ok tt) ->
  state_kept (viewer self) (viewer self')
  /\ ng.displayDimensions (viewer self') = display_dimensions self'.
Proof.
  unfold transform.
  cbv beta iota zeta delta [mbind Cmd_bind get_display_dimensions lift].
  destruct (display (ArgStr "ras") self) as [self1 [[]|e]] eqn:H1;
    [|intros [= ]].
  destruct (prepare_matrix t inv mov fix_) as [matrix|e]; [|intros [= ]].
  unfold txn at 1. fold (@mbind Res _).
  destruct (mapRes _ (ng.layers (viewer self1))) as [ls|e] eqn:Hls;
    [|intros [= ]].
  cbn [mbind Res_bind].
  intros H2. apply display_success_kept in H1 as (K1 & _).
  apply display_success_kept in H2 as (K2 & D2 & _). cbn [viewer] in K2.
  split; [|exact D2].
  eapply state_kept_trans; [exact K1|].
  eapply state_kept_trans; [|exact K2]. split; [|reflexivity].
  cbn [ng.layers ng.set_layers].
  eapply layers_kept; [|exact Hls]. intros l l'. cbv beta.
  destruct (_ && _); [intros [= <-]; apply layer_kept_refl|].
  apply on_image_sources_kept. apply transform_source_kept.
Qed.

End Kept.

(** ** The matrix of [transform] without inversion *)

Section Matrix.
Context {F : Type} {E : Externals F}.

(** X8.  Without [inv], a flat list of [n * (n + 1)] numbers comes out of
    the preparation as the [n] by [n + 1] matrix of exactly those numbers
    (the homogeneous row appended by [to_square] is the row that
    [transform[:-1]] drops again), and a flat list of 16 numbers comes out
    as the 3 by 4 matrix of its first 12: its last four entries are never
    looked at. *)
Theorem prepare_matrix_roundtrip (l : list F) (mov fix_ : option string) :
  (forall n, length l = n * (n + 1) ->
     prepare_matrix (np.PyList (map np.PyNum l)) false mov fix_
     = Ok (np.Ndarray [n; n + 1] l))
  /\ (length l = 16 ->
      prepare_matrix (np.PyList (map np.PyNum l)) false mov fix_
      = Ok (np.Ndarray [3; 4] (take 12 l))).
Proof.
  split.
  - intros n Hn.
    assert (Hne : length l <> 1).
    { rewrite Hn. destruct n as [|[|n]]; simpl; lia. }
    rewrite (prepare_matrix_flat _ _ _ _ Hne), (reshape_flat_pronic l n Hn).
    cbn [mbind Res_bind]. unfold to_square. cbn [np.shape].
    replace (Nat.eqb n (n + 1)) with false
      by (symmetry; apply Nat.eqb_neq; lia).
    cbn [mbind Res_bind np.data]. unfold np.drop_last.
    cbn [np.shape np.data Nat.pred fold_right]. do 2 f_equal.
    rewrite Nat.mul_1_r, <- Hn. apply take_app_length.
  - intros H16.
    assert (Hne : length l <> 1) by lia.
    rewrite (prepare_matrix_flat _ _ _ _ Hne), (reshape_flat_16 l H16).
    reflexivity.
Qed.

End Matrix.

(** ** [load] *)

Section Load.
Context {F : Type} {E : Externals F}.

Lemma redisplay_set (order : option (list string)) (self : Session F) :
  redisplay (Some order) self
  = (MkSession (ng.set_displayDimensions (viewer self) order) order
       (commits self ++ [ng.set_displayDimensions (viewer self) order])
       (stdout self), Ok tt).
Proof. reflexivity. Qed.

(** X9.  When the first file has no recognizable format, [load] raises
    [ValueError] after [redisplay(None)] has run: no layer is added, but the
    stored order and the committed [displayDimensions] are left at [None],
    and a following [display()] without argument raises [TypeError]. *)
Theorem load_unrecognized_format (filename : StrArg) (f : string)
    (rest : list string) (name : option string)
    (transform : option (np.PyVal F)) (self : Session F) :
  ensure_list filename = f :: rest ->
  str_truth name && Nat.ltb 1 (length (f :: rest)) = false ->
  snd (fst (parse_filename f)) = None ->
  let self' :=
    MkSession (ng.set_displayDimensions (viewer self) None) None
      (commits self ++ [ng.set_displayDimensions (viewer self) None])
      (stdout self) in
  load filename name transform self = (self', Raise ValueError)
  /\ ng.layers (viewer self') = ng.layers (viewer self)
  /\ display ArgNone self' = (self', Raise TypeError).
Proof.
  intros Hfiles Hguard Hformat. cbv zeta. split; [|split; reflexivity].
  unfold load. rewrite Hfiles, Hguard.
  cbv beta iota zeta delta [mbind Cmd_bind get_display_dimensions].
  rewrite redisplay_set. cbn [for_each].
  cbv beta iota zeta delta [mbind Cmd_bind].
  unfold load_one. destruct (parse_filename f) as [[layertype format] fn].
  cbn [fst snd] in Hformat. subst format.
  cbn [format_in]. reflexivity.
Qed.

(** X10.  [load] with a transform (a non-empty string or list, a non-zero
    number) never returns normally: once the files are loaded the call
    [self.transform(transform, name=name0)] passes a keyword that
    [transform] does not take. *)
Theorem load_with_transform_raises (filename : StrArg) (name : option string)
    (transform : option (np.PyVal F)) (self : Session F) :
  pyval_truth transform = true ->
  exists e, snd (load filename name transform self) = Raise e.
Proof.
  intros Htruth. unfold load.
  destruct (str_truth name && _); [eexists; reflexivity|].
  cbv beta iota zeta delta [mbind Cmd_bind get_display_dimensions].
  rewrite redisplay_set.
  destruct (for_each _ _ _) as [self2 [[]|e]]; [|eexists; reflexivity].
  rewrite Htruth. eexists; reflexivity.
Qed.

(** X11.  [load] of no file at all and without transform loads nothing but
    is not a no-op: it commits [displayDimensions = None], then commits
    [displayDimensions] back to the stored order, whatever the committed
    value was before. *)
Theorem load_nothing (filename : StrArg) (name : option string)
    (transform : option (np.PyVal F)) (self : Session F) :
  ensure_list filename = [] ->
  pyval_truth transform = false ->
  load filename name transform self
  = (MkSession
       (ng.set_displayDimensions (viewer self) (display_dimensions self))
       (display_dimensions self)
       (commits self
          ++ [ng.set_displayDimensions (viewer self) None;
              ng.set_displayDimensions (viewer self) (display_dimensions self)])
       (stdout self), Ok tt).
Proof.
  intros Hfiles Htruth. unfold load. rewrite Hfiles, Htruth.
  rewrite andb_false_r.
  cbv beta iota zeta delta [mbind Cmd_bind get_display_dimensions for_each
                            mret Cmd_ret].
  rewrite !redisplay_set. cbn. rewrite <- app_assoc. reflexivity.
Qed.

End Load.

(** ** [unload] of named layers *)

Section Unload.
Context {F : Type} {E : Externals F}.

Lemma filter_other_names (name : string) (ls : list (ng.ManagedLayer F)) :
  ~ In name (map ng.name ls) ->
  List.filter (fun l => negb (String.eqb (ng.name l) name)) ls = ls.
Proof.
  induction ls as [|l ls IH]; [reflexivity|]. cbn [map List.filter]. intros Hn.
  destruct (String.eqb_spec (ng.name l) name) as [Heq|_];
    [exfalso; apply Hn; left; exact Heq|].
  cbn [negb]. rewrite IH; [reflexivity|]. intros H. apply Hn. right. exact H.
Qed.

Lemma del_layer_present (name : string) (ls : list (ng.ManagedLayer F)) :
  List.NoDup (map ng.name ls) -> In name (map ng.name ls) ->
  del_layer name ls
  = Some (List.filter (fun l => negb (String.eqb (ng.name l) name)) ls).
Proof.
  induction ls as [|l ls IH]; [intros _ []|].
  cbn [map del_layer List.filter]. intros Hnd Hin.
  inversion Hnd as [|? ? Hl Hnd']; subst.
  destruct (String.eqb_spec (ng.name l) name) as [Heq|Hne]; cbn [negb].
  - subst name. rewrite (filter_other_names _ _ Hl). reflexivity.
  - destruct Hin as [Heq|Hin]; [contradiction|].
    rewrite (IH Hnd' Hin). reflexivity.
Qed.

Lemma names_filter (p : ng.ManagedLayer F -> bool)
    (ls : list (ng.ManagedLayer F)) (n : string) :
  In n (map ng.name (List.filter p ls)) -> In n (map ng.name ls).
Proof.
  intros H. apply in_map_iff in H as (l & Hl & Hin).
  apply filter_In in Hin as [Hin _]. apply in_map_iff. eauto.
Qed.

Lemma NoDup_names_filter (p : ng.ManagedLayer F -> bool)
    (ls : list (ng.ManagedLayer F)) :
  List.NoDup (map ng.name ls) -> List.NoDup (map ng.name (List.filter p ls)).
Proof.
  induction ls as [|l ls IH]; [intros _; constructor|].
  cbn [map List.filter]. intros Hnd. inversion Hnd as [|? ? Hl Hnd']; subst.
  destruct (p l); [|apply IH, Hnd'].
  cbn [map]. constructor; [|apply IH, Hnd'].
  intros H. apply Hl. eapply names_filter, H.
Qed.

Lemma del_layers_present (names : list string) (ls : list (ng.ManagedLayer F)) :
  List.NoDup names -> List.NoDup (map ng.name ls) ->
  (forall n, In n names -> In n (map ng.name ls)) ->
  del_layers names ls
  = Ok (List.filter (fun l => negb (existsb (String.eqb (ng.name l)) names)) ls).
Proof.
  revert ls. induction names as [|n names IH]; intros ls Hnames Hls Hin.
  - cbn [del_layers existsb negb]. f_equal. symmetry. clear.
    induction ls as [|l ls IHl]; [reflexivity|].
    cbn [List.filter]. f_equal. exact IHl.
  - cbn [del_layers]. unfold layers_delitem.
    rewrite (del_layer_present n ls Hls (Hin n (or_introl eq_refl))).
    cbn [mbind Res_bind]. inversion Hnames as [|? ? Hn Hnames']; subst.
    rewrite IH; [|exact Hnames'|apply NoDup_names_filter, Hls|].
    + f_equal. clear. induction ls as [|l ls IHl]; [reflexivity|].
      cbn [List.filter existsb].
      destruct (String.eqb (ng.name l) n); cbn [negb orb List.filter];
        [exact IHl|].
      destruct (negb _); [f_equal|]; exact IHl.
    + intros m Hm. specialize (Hin m (or_intror Hm)).
      apply in_map_iff in Hin as (l & Hl & Hinl). apply in_map_iff.
      exists l. split; [exact Hl|]. apply filter_In. split; [exact Hinl|].
      rewrite Hl. destruct (String.eqb_spec m n) as [->|_];
        [contradiction|reflexivity].
Qed.

(** X12.  When layer names are unique, [unload] of a non-empty list of
    distinct names that all exist removes exactly the layers so named, in one
    commit; the other layers stay, in their order, and the layout, the
    displayed order and the stored order are not touched. *)
Theorem unload_named (names : list string) (self : Session F) :
  names <> [] ->
  List.NoDup names ->
  List.NoDup (map ng.name (ng.layers (viewer self))) ->
  (forall n, In n names -> In n (map ng.name (ng.layers (viewer self)))) ->
  let remaining :=
    List.filter (fun l => negb (existsb (String.eqb (ng.name l)) names))
                (ng.layers (viewer self)) in
  unload (ArgList names) self
  = (MkSession (ng.set_layers (viewer self) remaining)
       (display_dimensions self)
       (commits self ++ [ng.set_layers (viewer self) remaining])
       (stdout self), Ok tt).
Proof.
  intros Hne Hnames Hls Hin. cbv zeta. unfold unload.
  destruct names as [|n names]; [congruence|]. cbn [ensure_list].
  cbv beta iota zeta delta [mbind Cmd_bind mret Cmd_ret txn].
  fold (@mbind Res _).
  rewrite (del_layers_present _ _ Hnames Hls Hin). reflexivity.
Qed.

End Unload.

(** ** [state] without a file *)

Section StateQuery.
Context {F : Type} {E : Externals F}.

(** X14.  A [load] argument that is neither an existing path nor a remote
    name, with the [url] flag left at [False], is meant to be a JSON string;
    the code decodes the flag instead ([json.loads(url)]), so the call raises
    [TypeError] and installs nothing. *)
Theorem state_json_string_raises (c : ascii) (rest : string)
    (save : option string) (print_ : bool) (self : Session F) :
  os_path_exists (String c rest)
  || Py.startswith_any (String c rest) remote_protocols = false ->
  state (Some (String c rest)) save (UrlFlag false) print_ self
  = (self, Raise TypeError).
Proof.
  intros Hcond. unfold state. cbn [str_truth String.eqb negb from_option].
  cbv beta iota zeta delta [mbind Cmd_bind lift id].
  rewrite state_load_flag, Hcond. reflexivity.
Qed.

(** X15.  Without [load], [state] never changes the viewer state, whatever
    [save], [url] and [print] are and whether or not saving raises: it
    commits the state it read.  When it returns with [print] on and [url]
    set, the value returned is the URL string, behind the fixed
    [https://neuroglancer-demo.appspot.com/#!]; otherwise it is the JSON
    document, also when [url] is set. *)
Theorem state_query (save : option string) (url : UrlArg) (print_ : bool)
    (self : Session F) :
  let r := state None save url print_ self in
  viewer (fst r) = viewer self
  /\ display_dimensions (fst r) = display_dimensions self
  /\ commits (fst r) = commits self ++ [viewer self]
  /\ (forall v, snd r = Ok v ->
        v = if print_ && url_truth url
            then inr ("https://neuroglancer-demo.appspot.com/#!"
                      +:+ urlquote (json_dumps (to_json (viewer self))))
            else inl (to_json (viewer self))).
Proof.
  cbv zeta. unfold state. cbn [str_truth].
  cbv beta iota zeta delta [mbind Cmd_bind mret Cmd_ret lift txn print].
  cbn [viewer display_dimensions commits stdout].
  destruct (str_truth save).
  - destruct (json_dump_file _ _) as [[]|e]; [|repeat split; intros v [= ]].
    destruct print_; [destruct (url_truth url)|];
      repeat split; intros v [= <-]; reflexivity.
  - destruct print_; [destruct (url_truth url)|];
      repeat split; intros v [= <-]; reflexivity.
Qed.

End StateQuery.

(** ** Editing the layout *)

Section LayoutEdit.
Context {F : Type} {E : Externals F}.

Lemma set_layout_same (st : ng.ViewerState F) :
  ng.set_layout st (ng.layout st) = st.
Proof. destruct st; reflexivity. Qed.

Lemma build_layout_empty (layer : list string) (flex : F) :
  build_layout [] None layer flex = LvList [].
Proof. destruct layer; reflexivity. Qed.

Lemma pop_last_nonempty (indices : list Z) :
  indices <> [] -> exists r, pop_last indices = Ok r.
Proof.
  intros Hne. unfold pop_last. destruct (last indices) eqn:Hl; [eauto|].
  apply last_None in Hl. contradiction.
Qed.

Lemma pop_last_snoc (path : list Z) (i : Z) :
  pop_last (path ++ [i]) = Ok (path, i).
Proof.
  unfold pop_last. rewrite last_snoc, removelast_last. reflexivity.
Qed.

(** X16.  Without a layout value and without [remove], [layout] is a query:
    it returns (and prints) the current layout and edits nothing, whatever
    [stack], [layer], [flex], [append] and [insert] are. *)
Theorem layout_query (layout_ : StrArg) (stack : option string)
    (layer : StrArg) (flex : F) (append insert : IntArg) (self : Session F) :
  ensure_list layout_ = [] ->
  layout layout_ stack layer flex append insert IntNone self
  = (MkSession (viewer self) (display_dimensions self)
       (commits self ++ [viewer self])
       (stdout self ++ [repr_layout (ng.layout (viewer self))]),
     Ok (ng.layout (viewer self))).
Proof.
  intros Hnone. unfold layout. rewrite Hnone. reflexivity.
Qed.

(** X17.  [remove=[0]] removes nothing: the popped position 0 counts as
    "no remove" in [elif remove:], so the call commits the state unchanged
    and returns the layout as it was, for every existing layout. *)
Theorem layout_remove_first (layer : StrArg) (flex : F) (self : Session F) :
  layout ArgNone None layer flex IntNone IntNone (IntList [0%Z]) self
  = (MkSession (viewer self) (display_dimensions self)
       (commits self ++ [viewer self]) (stdout self),
     Ok (ng.layout (viewer self))).
Proof.
  unfold layout. cbn [ensure_list length Nat.eqb is_IntNone andb].
  cbv beta iota zeta delta [mbind Cmd_bind mret Cmd_ret lift].
  cbn [Nat.ltb Nat.leb str_truth orb andb].
  cbn. rewrite build_layout_empty. cbn.
  unfold txn, layout_txn. cbn. rewrite set_layout_same. reflexivity.
Qed.

(** X18.  [remove=[k]] with [k > 0] on a root that is a stack deletes child
    [k] when there is one; when [k] is past the last child the call raises
    [IndexError] and the stack keeps all its children. *)
Theorem layout_remove_child (layer : StrArg) (flex : F) (k : Z)
    (ty : string) (ch : list (ng.Layout F)) (self : Session F) :
  ng.layout (viewer self) = ng.StackLayout ty ch ->
  (0 < k)%Z ->
  ((k < Z.of_nat (length ch))%Z ->
   let root := ng.StackLayout ty (delete (Z.to_nat k) ch) in
   layout ArgNone None layer flex IntNone IntNone (IntList [k]) self
   = (MkSession (ng.set_layout (viewer self) root) (display_dimensions self)
        (commits self ++ [ng.set_layout (viewer self) root]) (stdout self),
      Ok root))
  /\ ((Z.of_nat (length ch) <= k)%Z ->
      layout ArgNone None layer flex IntNone IntNone (IntList [k]) self
      = (self, Raise IndexError)).
Proof.
  intros Hroot Hk.
  assert (Hk0 : Z.eqb k 0 = false) by (apply Z.eqb_neq; lia).
  assert (Hneg : Z.ltb k 0 = false) by (apply Z.ltb_ge; lia).
  assert (Hrun : layout ArgNone None layer flex IntNone IntNone (IntList [k]) self
                 = txn (fun state =>
                          ch0 ← ng.children_of (ng.layout state);
                          ch' ← Py.del_index ch0 k;
                          Ok (ng.set_layout state
                                (ng.with_children (ng.layout state) ch'),
                              ng.with_children (ng.layout state) ch')) self).
  { unfold layout. cbn [ensure_list length Nat.eqb is_IntNone andb].
    cbv beta iota zeta delta [mbind Cmd_bind mret Cmd_ret lift].
    cbn [Nat.ltb Nat.leb str_truth orb andb].
    cbn. rewrite build_layout_empty, Hk0. cbn.
    unfold txn, layout_txn. cbn. rewrite Hk0. cbn.
    destruct (ng.children_of (ng.layout (viewer self))) as [ch0|e];
      [|reflexivity].
    cbn. destruct (Py.del_index ch0 k); reflexivity. }
  rewrite Hrun. unfold txn. rewrite Hroot. cbn [ng.children_of mbind Res_bind].
  unfold Py.del_index. cbv zeta. rewrite !Hneg. cbn [orb].
  split; intros Hlen.
  - replace (Z.leb (Z.of_nat (length ch)) k) with false
      by (symmetry; apply Z.leb_gt; lia).
    reflexivity.
  - replace (Z.leb (Z.of_nat (length ch)) k) with true
      by (symmetry; apply Z.leb_le; lia).
    reflexivity.
Qed.

Lemma build_layout_stack (k1 k2 : string) (kinds : list string)
    (stack : option string) (n : string) (ns : list string) (flex : F) :
  build_layout (k1 :: k2 :: kinds) stack (n :: ns) flex
  = LvNode
      (ng.StackLayout (if str_truth stack then default "" stack else "row")
         (map (fun L => ng.LayerGroupViewer (n :: ns) (ng.DataPanelLayout L) flex)
              (k1 :: k2 :: kinds))).
Proof.
  unfold build_layout. cbn [map length Nat.ltb Nat.leb andb].
  destruct (str_truth stack) eqn:Hstack; cbn [negb]; [rewrite Hstack|];
    reflexivity.
Qed.

(** Without edit flag the transaction stores the new layout as the root. *)
Lemma layout_txn_replace (new : LayoutVal) (layer : list string) (flex : F)
    (state : ng.ViewerState F) :
  layout_txn new layer flex [] false None None state
  = (n ← lv_node new; Ok (ng.set_layout state n, n)).
Proof. reflexivity. Qed.

(** X19.  Two panels or more, no explicit layers and no edit flag: the root
    is replaced by a stack, in the direction given or else in a row, with
    one [LayerGroupViewer] per panel, each scoped to the names of all the
    layers of the moment and carrying [flex].  (The names are read in a
    transaction of their own, hence the two commits.) *)
Theorem layout_replace_with_stack (k1 k2 : string) (kinds : list string)
    (stack : option string) (flex : F) (n : string) (ns : list string)
    (self : Session F) :
  map ng.name (ng.layers (viewer self)) = n :: ns ->
  let root :=
    ng.StackLayout (if str_truth stack then default "" stack else "row")
      (map (fun L => ng.LayerGroupViewer (n :: ns) (ng.DataPanelLayout L) flex)
           (k1 :: k2 :: kinds)) in
  layout (ArgList (k1 :: k2 :: kinds)) stack ArgNone flex IntNone IntNone
    IntNone self
  = (MkSession (ng.set_layout (viewer self) root) (display_dimensions self)
       (commits self ++ [viewer self; ng.set_layout (viewer self) root])
       (stdout self), Ok root).
Proof.
  intros Hnames. cbv zeta. unfold layout.
  cbn [ensure_list length Nat.eqb is_IntNone andb Nat.ltb Nat.leb orb].
  cbv beta iota zeta delta [mbind Cmd_bind mret Cmd_ret lift].
  unfold txn at 1.
  cbn [viewer display_dimensions commits stdout int_truth negb ensure_ints
       is_IntNone opt_int_truth Nat.b2n Nat.add Nat.ltb Nat.leb].
  rewrite Hnames, build_layout_stack, andb_false_r.
  unfold txn. rewrite layout_txn_replace.
  cbn [lv_node mbind Res_bind viewer display_dimensions commits stdout].
  rewrite <- app_assoc. reflexivity.
Qed.

(** X20.  Appending at the empty path with an explicit, non-empty set of
    layers: on a root that is a stack, one [LayerGroupViewer] scoped to those
    layers becomes the last child; on any other root the call raises
    [AttributeError] and commits nothing. *)
Theorem layout_append_scoped (kind : string) (l1 : string) (ls : list string)
    (flex : F) (self : Session F) :
  let new := ng.LayerGroupViewer (l1 :: ls) (ng.DataPanelLayout kind) flex in
  let run := layout (ArgList [kind]) None (ArgList (l1 :: ls)) flex
               (IntList []) IntNone IntNone self in
  (forall ty ch,
     ng.layout (viewer self) = ng.StackLayout ty ch ->
     let root := ng.StackLayout ty (ch ++ [new]) in
     run = (MkSession (ng.set_layout (viewer self) root)
              (display_dimensions self)
              (commits self ++ [ng.set_layout (viewer self) root])
              (stdout self), Ok root))
  /\ (ng.children_of (ng.layout (viewer self)) = Raise AttributeError ->
      run = (self, Raise AttributeError)).
Proof.
  cbv zeta.
  assert (Hrun : layout (ArgList [kind]) None (ArgList (l1 :: ls)) flex
                   (IntList []) IntNone IntNone self
                 = txn (fun state =>
                          ch ← ng.children_of (ng.layout state);
                          let root :=
                            ng.with_children (ng.layout state)
                              (ch ++ [ng.LayerGroupViewer (l1 :: ls)
                                        (ng.DataPanelLayout kind) flex]) in
                          Ok (ng.set_layout state root, root)) self).
  { unfold layout.
    cbn [ensure_list length Nat.eqb is_IntNone andb Nat.ltb Nat.leb orb
         str_truth].
    cbv beta iota zeta delta [mbind Cmd_bind mret Cmd_ret lift].
    cbn [int_truth negb ensure_ints is_IntNone opt_int_truth Nat.b2n Nat.add
         Nat.ltb Nat.leb build_layout map length andb str_truth lv_truth
         ng.truthy].
    unfold txn, layout_txn.
    cbn [orb walk lv_truth ng.truthy lv_is_LayerGroupViewer negb andb
         mbind Res_bind lv_node].
    destruct (ng.children_of (ng.layout (viewer self))); reflexivity. }
  rewrite Hrun. unfold txn. split.
  - intros ty ch Hroot. rewrite Hroot. reflexivity.
  - intros Hleaf. rewrite Hleaf. reflexivity.
Qed.

Lemma index_last {A} (xs : list A) (x : A) : Py.index (xs ++ [x]) (-1) = Ok x.
Proof.
  unfold Py.index. cbv zeta. cbn [Z.ltb Z.compare].
  rewrite length_app. cbn [length].
  replace (Z.of_nat (length xs + 1) + -1)%Z with (Z.of_nat (length xs)) by lia.
  replace (Z.ltb (Z.of_nat (length xs)) 0) with false
    by (symmetry; apply Z.ltb_ge; lia).
  replace (Z.leb (Z.of_nat (length xs + 1)) (Z.of_nat (length xs))) with false
    by (symmetry; apply Z.leb_gt; lia).
  cbn [orb]. rewrite Nat2Z.id, list_lookup_middle by reflexivity. reflexivity.
Qed.

(** X21.  Appending one panel at the empty path without naming layers: the
    new [LayerGroupViewer] takes the layers of the stack's last child when
    that child is a [LayerGroupViewer], and the names of all current layers
    when the stack has no child yet. *)
Theorem layout_append_infers_layers (kind : string) (flex : F) (ty : string)
    (self : Session F) :
  kind <> "" ->
  let run := layout (ArgList [kind]) None ArgNone flex (IntList []) IntNone
               IntNone self in
  let result root :=
    (MkSession (ng.set_layout (viewer self) root) (display_dimensions self)
       (commits self ++ [ng.set_layout (viewer self) root]) (stdout self),
     Ok root) in
  (forall ch scope inner fl,
     ng.layout (viewer self)
     = ng.StackLayout ty (ch ++ [ng.LayerGroupViewer scope inner fl]) ->
     run = result (ng.StackLayout ty
                     ((ch ++ [ng.LayerGroupViewer scope inner fl])
                      ++ [ng.LayerGroupViewer scope (ng.DataPanelLayout kind)
                            flex])))
  /\ (ng.layout (viewer self) = ng.StackLayout ty [] ->
      run = result (ng.StackLayout ty
                      [ng.LayerGroupViewer
                         (map ng.name (ng.layers (viewer self)))
                         (ng.DataPanelLayout kind) flex])).
Proof.
  intros Hkind. cbv zeta.
  assert (Htruth : negb (String.eqb kind "") = true).
  { destruct (String.eqb_spec kind ""); [contradiction|reflexivity]. }
  assert (Hrun : layout (ArgList [kind]) None ArgNone flex (IntList []) IntNone
                   IntNone self
                 = txn (layout_txn (LvNode (ng.DataPanelLayout kind)) [] flex []
                          true None None) self).
  { unfold layout.
    cbn [ensure_list length Nat.eqb is_IntNone andb Nat.ltb Nat.leb orb
         str_truth].
    cbv beta iota zeta delta [mbind Cmd_bind mret Cmd_ret lift].
    cbn [int_truth negb ensure_ints is_IntNone opt_int_truth Nat.b2n Nat.add
         Nat.ltb Nat.leb build_layout map length andb str_truth].
    rewrite andb_false_r. reflexivity. }
  rewrite Hrun. unfold txn, layout_txn.
  cbn [orb walk lv_truth ng.truthy lv_is_LayerGroupViewer negb andb].
  rewrite Htruth. cbn [andb]. split.
  - intros ch scope inner fl Hroot. rewrite Hroot.
    cbn [mbind Res_bind ng.children_of]. rewrite length_app. cbn [length].
    replace (Nat.eqb (length ch + 1) 0) with false
      by (symmetry; apply Nat.eqb_neq; lia).
    cbn [negb]. rewrite index_last. reflexivity.
  - intros Hroot. rewrite Hroot. reflexivity.
Qed.

(** X22.  [append] together with an [insert] whose position is not 0 is
    refused: the call raises [ValueError] and the viewer state is the one of
    before, whatever the other arguments are. *)
Theorem layout_append_and_insert (layout_ : StrArg) (stack : option string)
    (layer : StrArg) (flex : F) (append remove : IntArg) (path : list Z)
    (i : Z) (self : Session F) :
  ensure_list layout_ <> [] ->
  is_IntNone append = false ->
  i <> 0%Z ->
  let r := layout layout_ stack layer flex append (IntList (path ++ [i]))
             remove self in
  snd r = Raise ValueError /\ viewer (fst r) = viewer self.
Proof.
  intros Hlayout Happend Hi. cbv zeta. unfold layout.
  destruct (ensure_list layout_) as [|k ks] eqn:Hk; [congruence|].
  cbn [length Nat.eqb andb]. rewrite Happend.
  assert (Hins : int_truth (IntList (path ++ [i])) = true).
  { cbn [int_truth]. rewrite length_app. cbn [length].
    destruct (length path + 1) eqn:Hl; [lia|reflexivity]. }
  assert (Hi0 : negb (Z.eqb i 0) = true).
  { destruct (Z.eqb_spec i 0); [contradiction|reflexivity]. }
  assert (Hremove : exists r, (if int_truth remove
                               then '(ix, j) ← pop_last (ensure_ints remove);
                                    Ok (ix, Some j)
                               else Ok (path, None)) = Ok r).
  { destruct (int_truth remove) eqn:Hr; [|eauto].
    destruct (pop_last_nonempty (ensure_ints remove)) as [[ix j] ->];
      [|eexists; reflexivity].
    destruct remove as [|j|l]; cbn [int_truth ensure_ints] in *;
      [discriminate| |].
    - destruct (Z.eqb j 0); [discriminate|congruence].
    - destruct l; [discriminate|congruence]. }
  destruct Hremove as [[indices remove'] Hremove].
  cbv beta iota zeta delta [mbind] in Hremove. cbn [Res_bind] in Hremove.
  destruct ((Nat.ltb 1 (S (length ks)) || str_truth stack)
            && Nat.eqb (length (ensure_list layer)) 0);
    cbv beta iota zeta delta [mbind Cmd_bind mret Cmd_ret lift txn];
    cbn [viewer display_dimensions commits stdout negb];
    rewrite Hins; cbn [ensure_ints]; rewrite pop_last_snoc;
    cbn [Res_bind]; rewrite Hremove;
    cbn [opt_int_truth]; rewrite Hi0;
    cbn [Nat.b2n Nat.add Nat.ltb Nat.leb]; split; reflexivity.
Qed.

End LayoutEdit.

(** ** The [action] decorator *)

(** X23.  Called with an [argparse.Namespace], [action] hands the function
    no positional argument and the merged keywords: a keyword of the call
    wins over the parsed one of the same name, and the entry ['func'] never
    reaches the function.  A second positional argument beside the
    namespace raises [ValueError].  Without a namespace, arguments and
    keywords pass through as they are. *)
Theorem action_merges {V} (parsedargs kwargs : gmap string V)
    (rest : list (@Arg V)) (v : V) :
  (rest <> [] -> action (Namespace parsedargs :: rest) kwargs = Raise ValueError)
  /\ (exists kw,
        action [Namespace parsedargs] kwargs = Ok ([], kw)
        /\ kw !! "func" = None
        /\ forall k, k <> "func" ->
             kw !! k = match kwargs !! k with
                       | Some x => Some x
                       | None => parsedargs !! k
                       end)
  /\ action (Positional v :: rest) kwargs = Ok (Positional v :: rest, kwargs)
  /\ action [] kwargs = Ok ([], kwargs).
Proof.
  split; [|split; [|split; reflexivity]].
  - intros Hrest. unfold action. destruct rest; [congruence|reflexivity].
  - eexists. split; [reflexivity|]. split.
    + apply lookup_delete_eq.
    + intros k Hk. rewrite lookup_delete_ne by congruence.
      rewrite lookup_union.
      destruct (kwargs !! k), (parsedargs !! k); reflexivity.
Qed.

(** ** [shader] *)

Section Shader.
Context {F : Type} {S : ShaderCatalog}.

Lemma shade_name (names : list string) (code : string) (l : ng.ManagedLayer F) :
  ng.name (shade names code l) = ng.name l.
Proof. unfold shade. destruct (_ && _); reflexivity. Qed.

Lemma shade_idempotent (names : list string) (code : string)
    (l : ng.ManagedLayer F) :
  shade names code (shade names code l) = shade names code l.
Proof.
  unfold shade at 1. rewrite shade_name. unfold shade.
  destruct (_ && _); reflexivity.
Qed.

(** X25.  Applying the same shader to the same layers twice leaves the
    viewer state that applying it once leaves. *)
Theorem shader_twice (name : string) (layer : StrArg) (self : Session F) :
  viewer (fst (shader name layer (fst (shader name layer self))))
  = viewer (fst (shader name layer self)).
Proof.
  unfold shader, txn. cbn [fst viewer ng.layers ng.set_layers].
  unfold ng.set_layers. cbn [ng.layers ng.layout ng.displayDimensions].
  f_equal. rewrite map_map. apply map_ext. intros l. apply shade_idempotent.
Qed.

End Shader.

(** ** The further properties at the sample collaborators *)

Lemma parse_filename_decomposes_witness :
  parse_filename "brain.nii.gz" = (None, Some "nifti", "brain.nii.gz").
Proof.
  pose proof (parse_filename_decomposes "brain.nii.gz") as H.
  destruct (parse_filename "brain.nii.gz") as [[datatype format] rest].
  destruct H as [_ H]. destruct H as (-> & -> & ->).
  - repeat (constructor; [reflexivity|]). constructor.
  - reflexivity.
Defined.


Lemma compactNames_letters_witness :
  exists compact,
    compactNames ["Right"; "channel"; "Anterior"; "time"; "Superior"]
    = Ok compact
    /\ Py.contains compact "c" = false.
Proof.
  destruct (compactNames_letters
              ["Right"; "channel"; "Anterior"; "time"; "Superior"])
    as [H _].
  destruct H as (compact & heads & Hc & _ & _ & Hnoc & _).
  - simpl. intros H. repeat destruct H as [H|H]; try discriminate H. exact H.
  - exists compact. split; [exact Hc|exact Hnoc].
Defined.

Lemma sample_bare_unknown :
  unknown_dimensions (E:=Sample.externals)
    (Sample.bare "zarr://http://host/bare.zarr").
Proof.
  constructor; [reflexivity|reflexivity|].
  right. eexists. split; [reflexivity|]. split; reflexivity.
Defined.

Lemma getDimensions_bounded_unknown_witness :
  getDimensions (E:=Sample.externals) (Sample.bare "zarr://http://host/bare.zarr")
  = Ok None
  /\ display_source (E:=Sample.externals) "ras"
       (Sample.bare "zarr://http://host/bare.zarr")
     = Ok (Sample.bare "zarr://http://host/bare.zarr").
Proof.
  destruct (getDimensions_bounded_unknown (E:=Sample.externals)
              (Sample.bare "zarr://http://host/bare.zarr")) as [_ H].
  destruct (H sample_bare_unknown) as [Hdims Hskip].
  split; [exact Hdims|].
  apply (Hskip eq_refl "ras" (Sample.reorientation "xyz" "ras")).
Defined.

Lemma display_keeps_witness :
  state_kept (viewer Sample.session)
    (viewer (fst (display (E:=Sample.externals) (ArgStr "ras") Sample.session))).
Proof.
  apply (display_keeps (E:=Sample.externals) (ArgStr "ras") Sample.session
           (fst (display (E:=Sample.externals) (ArgStr "ras") Sample.session))).
  vm_compute; reflexivity.
Defined.

Lemma display_failure_witness :
  viewer (fst (display (E:=Sample.externals) (ArgStr "ras")
                 (Sample.state_of
                    [ng.MkSource None (Some (Sample.space_of "ijk")) true
                       "local://ijk" None]
                    (ng.DataPanelLayout "4panel"))))
  = viewer (Sample.state_of
              [ng.MkSource None (Some (Sample.space_of "ijk")) true
                 "local://ijk" None]
              (ng.DataPanelLayout "4panel")).
Proof.
  apply (display_failure (E:=Sample.externals) (ArgStr "ras") _ _ KeyError).
  vm_compute; reflexivity.
Defined.

Lemma transform_keeps_witness :
  state_kept (viewer Sample.session)
    (viewer (fst (transform (E:=Sample.externals)
                    (np.PyList (map np.PyNum
                                    [1; 0; 0; 5; 0; 2; 0; 0; 0; 0; 1; 0]%Q))
                    ArgNone true None None Sample.session))).
Proof.
  apply (transform_keeps (E:=Sample.externals)
           (np.PyList (map np.PyNum [1; 0; 0; 5; 0; 2; 0; 0; 0; 0; 1; 0]%Q))
           ArgNone true None None Sample.session).
  vm_compute; reflexivity.
Defined.

Lemma prepare_matrix_roundtrip_witness :
  prepare_matrix (E:=Sample.externals)
    (np.PyList (map np.PyNum [1; 0; 5; 0; 1; 7]%Q)) false None None
  = Ok (np.Ndarray [2; 3] [1; 0; 5; 0; 1; 7]%Q).
Proof.
  apply (prepare_matrix_roundtrip (E:=Sample.externals)
           [1; 0; 5; 0; 1; 7]%Q None None).
  reflexivity.
Defined.

Lemma load_unrecognized_format_witness :
  snd (load (E:=Sample.externals) (ArgStr "data.bin") None None Sample.session)
  = Raise ValueError.
Proof.
  destruct (load_unrecognized_format (E:=Sample.externals) (ArgStr "data.bin")
              "data.bin" [] None None Sample.session) as [H _];
    [reflexivity|reflexivity|reflexivity|].
  rewrite H. reflexivity.
Defined.

Lemma load_with_transform_raises_witness :
  exists e,
    snd (load (E:=Sample.externals) (ArgStr "mgh:///data/t1.mgh") None
           (Some (np.PyStr "affine.lta")) Sample.session) = Raise e.
Proof.
  apply (load_with_transform_raises (E:=Sample.externals)).
  reflexivity.
Defined.

Lemma load_nothing_witness :
  snd (load (E:=Sample.externals) ArgNone None None Sample.session) = Ok tt.
Proof.
  rewrite (load_nothing (E:=Sample.externals) ArgNone None None Sample.session);
    reflexivity.
Defined.

Lemma unload_named_witness :
  ng.layers (viewer (fst (unload (E:=Sample.externals) (ArgList ["brain"])
                            Sample.session))) = [].
Proof.
  rewrite (unload_named (E:=Sample.externals) ["brain"] Sample.session).
  - reflexivity.
  - discriminate.
  - repeat constructor. intros [].
  - repeat constructor. intros [].
  - intros n [<-|[]]. left. reflexivity.
Defined.

Lemma state_json_string_raises_witness :
  state (E:=Sample.externals) (Some "{}") None (UrlFlag false) true
    Sample.session
  = (Sample.session, Raise TypeError).
Proof.
  apply (state_json_string_raises (E:=Sample.externals) "{" "}" None true
           Sample.session).
  reflexivity.
Defined.

Lemma state_query_witness :
  viewer (fst (state (E:=Sample.externals) None None (UrlFlag true) true
                 Sample.session))
  = viewer Sample.session.
Proof.
  apply (state_query (E:=Sample.externals) None (UrlFlag true) true
           Sample.session).
Defined.

Lemma layout_query_witness :
  snd (layout (E:=Sample.externals) ArgNone (Some "row") ArgNone 1%Q
         (IntList [0%Z]) IntNone IntNone Sample.nested_session)
  = Ok Sample.nested.
Proof.
  rewrite (layout_query (E:=Sample.externals) ArgNone (Some "row") ArgNone 1%Q
             (IntList [0%Z]) IntNone Sample.nested_session); reflexivity.
Defined.

Lemma layout_remove_child_witness :
  snd (layout (E:=Sample.externals) ArgNone None ArgNone 1%Q IntNone IntNone
         (IntList [1%Z]) Sample.nested_session)
  = Ok (ng.StackLayout "row"
          [ng.StackLayout "column"
             [ng.LayerGroupViewer ["brain"] (ng.DataPanelLayout "xy") 1%Q]]).
Proof.
  destruct (layout_remove_child (E:=Sample.externals) ArgNone 1%Q 1%Z "row"
              [ng.StackLayout "column"
                 [ng.LayerGroupViewer ["brain"] (ng.DataPanelLayout "xy") 1%Q];
               ng.LayerGroupViewer ["brain"] (ng.DataPanelLayout "3d") 1%Q]
              Sample.nested_session) as [H _]; [reflexivity|lia|].
  rewrite H; [reflexivity|simpl; lia].
Defined.

Lemma layout_replace_with_stack_witness :
  snd (layout (E:=Sample.externals) (ArgList ["xy"; "3d"]) None ArgNone 1%Q
         IntNone IntNone IntNone Sample.session)
  = Ok (ng.StackLayout "row"
          [ng.LayerGroupViewer ["brain"] (ng.DataPanelLayout "xy") 1%Q;
           ng.LayerGroupViewer ["brain"] (ng.DataPanelLayout "3d") 1%Q]).
Proof.
  rewrite (layout_replace_with_stack (E:=Sample.externals) "xy" "3d" [] None
             1%Q "brain" [] Sample.session); reflexivity.
Defined.

Lemma layout_append_scoped_witness :
  snd (layout (E:=Sample.externals) (ArgList ["yz"]) None (ArgList ["brain"])
         1%Q (IntList []) IntNone IntNone Sample.session)
  = Raise AttributeError.
Proof.
  destruct (layout_append_scoped (E:=Sample.externals) "yz" "brain" [] 1%Q
              Sample.session) as [_ H].
  rewrite H; reflexivity.
Defined.

Lemma layout_append_infers_layers_witness :
  snd (layout (E:=Sample.externals) (ArgList ["yz"]) None ArgNone 1%Q
         (IntList []) IntNone IntNone Sample.nested_session)
  = Ok (ng.StackLayout "row"
          [ng.StackLayout "column"
             [ng.LayerGroupViewer ["brain"] (ng.DataPanelLayout "xy") 1%Q];
           ng.LayerGroupViewer ["brain"] (ng.DataPanelLayout "3d") 1%Q;
           ng.LayerGroupViewer ["brain"] (ng.DataPanelLayout "yz") 1%Q]).
Proof.
  destruct (layout_append_infers_layers (E:=Sample.externals) "yz" 1%Q "row"
              Sample.nested_session) as [H _]; [discriminate|].
  rewrite (H [ng.StackLayout "column"
                [ng.LayerGroupViewer ["brain"] (ng.DataPanelLayout "xy") 1%Q]]
             ["brain"] (ng.DataPanelLayout "3d") 1%Q); reflexivity.
Defined.

Lemma layout_append_and_insert_witness :
  snd (layout (E:=Sample.externals) (ArgList ["xy"]) None ArgNone 1%Q
         (IntList []) (IntList [2%Z]) IntNone Sample.nested_session)
  = Raise ValueError.
Proof.
  apply (layout_append_and_insert (E:=Sample.externals) (ArgList ["xy"]) None
           ArgNone 1%Q (IntList []) IntNone [] 2%Z Sample.nested_session).
  - discriminate.
  - reflexivity.
  - discriminate.
Defined.

Lemma action_merges_witness :
  action [Namespace ({["func" := 0; "layer" := 1]} : gmap string nat);
          Positional 5] ∅
  = Raise ValueError.
Proof.
  apply (action_merges {["func" := 0; "layer" := 1]} ∅ [Positional 5] 0).
  discriminate.
Defined.
